(** * PyKED: the ReSpecTh-to-ChemKED converter ([pyked/converters.py])

    A shallow embedding of the functions of [converters.py] that read a
    ReSpecTh XML document and build the ChemKED [properties] dictionary,
    followed by the properties proved about them.

    Modelling conventions.
    - An XML element is a value of [Element] (tag, attribute dictionary,
      optional text, children); file parsing itself is outside the model,
      so [read_experiment] starts from the parsed root.
    - A Python [dict] is a [gmap string _]; [d[k]] on a missing key raises
      [KeyError], [k in d] is [has_key].
    - A raised exception is the [Raise] branch of [result]; the exception
      classes of the module and the built-in ones the code can hit are the
      constructors of [exn].  [print] and [warn] calls have no effect on
      results and are left out.
    - Strings are lists of bytes; [upper] acts on ASCII letters.
    - What Python and the bibliographic service provide ([float], [int],
      the Crossref lookup, the package version) is the interface
      [Runtime]. *)

From stdpp Require Import gmap strings list fin_maps.
From Stdlib Require Import ZArith Ascii.

Open Scope string_scope.

(** ** Exceptions and results *)

Inductive exn : Type :=
  | KeywordError (keywords : string)
  | MissingElementError (keywords : string)
  | MissingAttributeError (keywords : string)
  | UndefinedKeywordError (keywords : string)
  | NotImplementedError (msg : string)
  | AttributeError
  | KeyError (key : string)
  | TypeError
  | ValueError
  | OverflowError
  | IndexError
  | AssertionError
  | NameError (name : string)
  | UnboundLocalError (name : string).

(** [isinstance(e, KeywordError)]: the three subclasses declared in the
    module derive from [KeywordError]. *)
Definition is_KeywordError (e : exn) : bool :=
  match e with
  | KeywordError _ | MissingElementError _
  | MissingAttributeError _ | UndefinedKeywordError _ => true
  | _ => false
  end.

Inductive result (A : Type) : Type :=
  | Ok (a : A)
  | Raise (e : exn).
Arguments Ok {A} a.
Arguments Raise {A} e.

#[global] Instance result_ret : MRet result := fun A a => Ok a.
#[global] Instance result_bind : MBind result := fun A B f m =>
  match m with
  | Ok a => f a
  | Raise e => Raise e
  end.

Definition is_Ok {A} (r : result A) : bool :=
  match r with Ok _ => true | Raise _ => false end.

(** A [for] loop that threads an accumulator and stops at the first
    exception. *)
Fixpoint for_each {A B} (f : B -> A -> result B) (b : B) (l : list A)
  : result B :=
  match l with
  | [] => Ok b
  | x :: l' => b' ← f b x; for_each f b' l'
  end.

(** ** Python strings *)

Definition upper_ascii (c : ascii) : ascii :=
  let n := N_of_ascii c in
  if ((97 <=? n) && (n <=? 122))%N then ascii_of_N (n - 32) else c.

Fixpoint upper (s : string) : string :=
  match s with
  | EmptyString => EmptyString
  | String c s' => String (upper_ascii c) (upper s')
  end.

(** [s.rstrip(c)] for a one-character argument. *)
Fixpoint rstrip (c : ascii) (s : string) : string :=
  match s with
  | EmptyString => EmptyString
  | String a s' =>
      let r := rstrip c s' in
      if Ascii.eqb a c && String.eqb r "" then "" else String a r
  end.

(** [s.split(c)] for a one-character separator. *)
Fixpoint split (c : ascii) (s : string) : list string :=
  match s with
  | EmptyString => [""]
  | String a s' =>
      if Ascii.eqb a c then "" :: split c s'
      else match split c s' with
           | [] => [String a ""]
           | h :: t => String a h :: t
           end
  end.

(** [x in l] for a list of strings. *)
Definition str_in (x : string) (l : list string) : bool :=
  existsb (String.eqb x) l.

(** [os.path.basename]: what follows the last slash. *)
Definition basename (p : string) : string := List.last (split "/" p) "".

(** [' '.join([a, b])]. *)
Definition join2 (a b : string) : string := a ++ " " ++ b.

(** ** Dictionaries *)

Definition has_key {V} (k : string) (d : gmap string V) : bool :=
  match d !! k with Some _ => true | None => false end.

(** [d[k]], raising [KeyError]. *)
Definition getitem {V} (d : gmap string V) (k : string) : result V :=
  match d !! k with Some v => Ok v | None => Raise (KeyError k) end.

(** A reference to an object: an index into the heap of a [store]. *)
Abbreviation loc := nat.

(** ** ElementTree *)

Inductive Element : Type :=
  mkElement {
    tag : string;
    attrib : gmap string string;
    text : option string;
    children : list Element
  }.

(** [e.findall(t)]: the children with tag [t], in document order. *)
Definition findall (t : string) (e : Element) : list Element :=
  filter (fun c => tag c = t) (children e).

(** [e.find(t)]. *)
Definition find (t : string) (e : Element) : option Element :=
  head (findall t e).

(** [e.iterfind('a/b')] and [e.find('a/b')]. *)
Definition iterfind2 (a b : string) (e : Element) : list Element :=
  flat_map (findall b) (findall a e).

Definition find2 (a b : string) (e : Element) : option Element :=
  head (iterfind2 a b e).

(** [e.iter(t)]: [e] and its descendants with tag [t], in document order. *)
Fixpoint iter (t : string) (e : Element) : list Element :=
  match e with
  | mkElement tg _ _ cs =>
      ((if decide (tg = t) then [e] else []) ++ flat_map (iter t) cs)%list
  end.

(** [x.text] where [x] may be [None]: attribute access on [None] raises
    [AttributeError]. *)
Definition text_of (x : option Element) : result (option string) :=
  match x with
  | Some e => Ok (text e)
  | None => Raise AttributeError
  end.

(** A string operand that may be [None]: [None + '...'], [' '.join] on
    [None] and [float(None)] raise [TypeError]. *)
Definition as_str (x : option string) : result string :=
  match x with
  | Some s => Ok s
  | None => Raise TypeError
  end.

(** [try: body except: raise e] with a bare [except], which catches every
    exception the body raises. *)
Definition except_all {A} (body : result A) (e : exn) : result A :=
  match body with
  | Ok a => Ok a
  | Raise _ => Raise e
  end.

(** ** What the converter takes from outside *)

(** The part of a Crossref [message] that [get_reference] reads.  A field
    is [None] when the key is absent from the JSON object. *)
Record crossref_author : Type := {
  given : option string;
  family : option string;
  ORCID : option string
}.

Record crossref_message : Type := {
  container_title : option (list string);
  published_print : option (list (list Z));
  published_online : option (list (list Z));
  cr_volume : option string;
  page : option string;
  author : option (list crossref_author)
}.

(** Outcome of [habanero.Crossref().works(ids=doi)]: the message, an
    [HTTPError]/[RequestError], or a [ConnectionError]. *)
Inductive lookup : Type :=
  | Found (message : crossref_message)
  | HTTPFailure
  | ConnectionFailure.

Class Runtime : Type := {
  pyfloat : Type;
  (** [float(s)] on a string; [None] stands for [ValueError]. *)
  float_of_str : string -> option pyfloat;
  (** [int(x)] on a float ([OverflowError] on infinities, [ValueError] on
      NaN). *)
  int_of_float : pyfloat -> result Z;
  (** [int(s)] on a string; [None] stands for [ValueError]. *)
  int_of_str : string -> option Z;
  crossref_works : string -> lookup;
  (** [pyked._version.__version__]. *)
  version : string
}.

Section Converters.
Context {rt : Runtime}.

Definition py_float (x : option string) : result pyfloat :=
  s ← as_str x;
  match float_of_str s with
  | Some f => Ok f
  | None => Raise ValueError
  end.

Definition py_int (x : option string) : result Z :=
  s ← as_str x;
  match int_of_str s with
  | Some n => Ok n
  | None => Raise ValueError
  end.

(** ** The pieces of the [properties] dictionary *)

Record file_metadata : Type := {
  file_author_name : option string;
  file_version : Z;
  chemked_version : string
}.

Record ref_author : Type := {
  auth_name : string;
  auth_ORCID : option string
}.

(** The [reference] dictionary: a field is [None] when its key is absent.
    [ref_pages] is the one key whose value can itself be [None]. *)
Record reference : Type := {
  ref_doi : option string;
  ref_journal : option string;
  ref_year : option Z;
  ref_volume : option Z;
  ref_pages : option (option string);
  ref_authors : option (list ref_author);
  ref_citation : option string;
  ref_detail : option string
}.

Definition empty_reference : reference :=
  {| ref_doi := None; ref_journal := None; ref_year := None;
     ref_volume := None; ref_pages := None; ref_authors := None;
     ref_citation := None; ref_detail := None |}.

Record apparatus : Type := {
  kind : string;
  institution : string;
  facility : string
}.

Record experiment_kind : Type := {
  experiment_type : string;
  exp_apparatus : apparatus
}.

Record species : Type := {
  species_name : string;
  InChI : option string;
  amount : list pyfloat
}.

Record composition : Type := {
  comp_species : list species;
  comp_kind : string
}.

Record ignition : Type := {
  ign_type : string;
  ign_target : string
}.

Record column : Type := {
  col_units : string;
  col_index : Z
}.

Record volume_history : Type := {
  vh_time : column;
  vh_volume : column;
  vh_values : list (option pyfloat * option pyfloat)
}.

(** The values stored under the keys of [common-properties] and of a
    datapoint. *)
Inductive value : Type :=
  | VQuantity (q : list string)
  | VComposition (c : composition)
  | VIgnition (i : ignition)
  | VVolumeHistory (h : volume_history).

(** Truth value of a stored object: an empty list is false, a non-empty
    dictionary is true. *)
Definition truthy (v : value) : bool :=
  match v with
  | VQuantity [] => false
  | _ => true
  end.


Record properties : Type := {
  metadata : file_metadata;
  prop_reference : reference;
  prop_experiment : experiment_kind;
  common_properties : gmap string value;
  datapoints : list (gmap string value)
}.

(** ** [get_file_metadata] *)

Definition version_string (root : Element) : result string :=
  match find "fileVersion" root with
  | None => Ok "0"
  | Some elem =>
      match find "major" elem with
      | None => Ok "0"
      | Some major =>
          a ← as_str (text major);
          match find "minor" elem with
          | None => Ok "0"
          | Some minor =>
              b ← as_str (text minor);
              Ok (a ++ "." ++ b)
          end
      end
  end.

Definition get_file_metadata (root : Element) : result file_metadata :=
  let name :=
    match find "fileAuthor" root with
    | Some e => text e
    | None => Some ""
    end in
  v ← version_string root;
  x ← py_float (Some v);
  n ← int_of_float x;
  Ok {| file_author_name := name; file_version := n;
        chemked_version := version |}.

(** ** [get_reference] *)

Definition convert_author (a : crossref_author) : result ref_author :=
  g ← match given a with Some g => Ok g | None => Raise (KeyError "given") end;
  f ← match family a with Some f => Ok f | None => Raise (KeyError "family") end;
  Ok {| auth_name := join2 g f;
        auth_ORCID := match ORCID a with
                      | Some "" | None => None
                      | Some o => Some o
                      end |}.

Fixpoint convert_authors (l : list crossref_author) : result (list ref_author) :=
  match l with
  | [] => Ok []
  | a :: l' =>
      x ← convert_author a;
      xs ← convert_authors l';
      Ok (x :: xs)
  end.

(** The block under [if ref is not None]. *)
Definition fill_reference (doi : string) (ref : crossref_message)
  : result reference :=
  journal ← match container_title ref with
             | None => Raise TypeError
             | Some [] => Raise IndexError
             | Some (j :: _) => Ok j
             end;
  year ← match (match published_print ref with
                 | Some d => Some d
                 | None => published_online ref
                 end) with
          | None => Raise TypeError
          | Some [] | Some ([] :: _) => Raise IndexError
          | Some ((y :: _) :: _) => Ok y
          end;
  vol ← py_int (cr_volume ref);
  auths ← match author ref with
           | None => Raise (KeyError "author")
           | Some l => convert_authors l
           end;
  Ok {| ref_doi := Some doi; ref_journal := Some journal;
        ref_year := Some year; ref_volume := Some vol;
        ref_pages := Some (page ref); ref_authors := Some auths;
        ref_citation := None; ref_detail := None |}.

Definition get_reference (root : Element) : result reference :=
  match find "bibliographyLink" root with
  | None => Raise AttributeError
  | Some elem =>
      match attrib elem !! "doi" with
      | Some doi =>
          match crossref_works doi with
          | HTTPFailure => Raise (NameError "self")
          | ConnectionFailure =>
              Ok {| ref_doi := Some doi; ref_journal := None;
                    ref_year := None; ref_volume := None;
                    ref_pages := None; ref_authors := None;
                    ref_citation := None; ref_detail := None |}
          | Found ref => fill_reference doi ref
          end
      | None =>
          Ok {| ref_doi := None; ref_journal := None; ref_year := None;
                ref_volume := None; ref_pages := None; ref_authors := None;
                ref_citation := attrib elem !! "preferredKey";
                ref_detail := None |}
      end
  end.

(** The two shapes of a reference: the fields obtained through the DOI,
    and the citation fallback. *)
Definition present {A} (o : option A) : bool :=
  match o with Some _ => true | None => false end.

Definition doi_shape (r : reference) : bool :=
  present (ref_doi r) || present (ref_journal r) || present (ref_year r)
  || present (ref_volume r) || present (ref_pages r)
  || present (ref_authors r).

Definition citation_shape (r : reference) : bool := present (ref_citation r).

(** ** [get_experiment_kind] *)

Definition read_kind (root : Element) : result string :=
  k ← text_of (find2 "apparatus" "kind" root);
  match k with
  | Some kind =>
      if str_in kind ["shock tube"; "rapid compression machine"]
      then Ok kind
      else Raise (NotImplementedError (kind ++ " experiment not (yet) supported"))
  | None => Raise TypeError
  end.

Definition get_experiment_kind (root : Element) : result experiment_kind :=
  t ← text_of (find "experimentType" root);
  if decide (t = Some "Ignition delay measurement") then
    kind ← except_all (read_kind root) (MissingElementError "apparatus/kind");
    Ok {| experiment_type := "ignition delay";
          exp_apparatus := {| kind := kind; institution := "";
                              facility := "" |} |}
  else Raise (KeywordError "experimentType not ignition delay measurement").

(** ** [get_common_properties] *)

(** [[' '.join([elem.find('value').text, elem.attrib['units']])]]. *)
Definition value_with_units (elem : Element) : result value :=
  t ← text_of (find "value" elem);
  u ← getitem (attrib elem) "units";
  s ← as_str t;
  Ok (VQuantity [join2 s u]).

(** The pressure branch reads the units first and lower-cases [Torr]. *)
Definition pressure_with_units (elem : Element) : result value :=
  u ← getitem (attrib elem) "units";
  let units := if decide (u = "Torr") then "torr" else u in
  t ← text_of (find "value" elem);
  s ← as_str t;
  Ok (VQuantity [join2 s units]).

(** One turn of the loop over the [component] elements; the state is the
    species list and [composition_type]. *)
Definition read_component (st : list species * option string)
    (child : Element) : result (list species * option string) :=
  let '(specs, composition_type) := st in
  match find "speciesLink" child with
  | None => Raise AttributeError
  | Some link =>
      name ← getitem (attrib link) "preferredKey";
      t ← text_of (find "amount" child);
      x ← py_float t;
      let spec := {| species_name := name; InChI := attrib link !! "InChI";
                     amount := [x] |} in
      units ← match find "amount" child with
               | Some a => getitem (attrib a) "units"
               | None => Raise AttributeError
               end;
      match composition_type with
      | None | Some "" => Ok ((specs ++ [spec])%list, Some units)
      | Some ct =>
          if decide (ct = units) then Ok ((specs ++ [spec])%list, Some ct)
          else Raise (KeywordError "inconsistent initial composition units")
      end
  end.

Definition read_composition (elem : Element) : result value :=
  '(specs, composition_type) ←
    for_each read_component ([], None) (iter "component" elem);
  match composition_type with
  | Some ct =>
      if str_in ct ["mole fraction"; "mass fraction"]
      then Ok (VComposition {| comp_species := specs; comp_kind := ct |})
      else Raise AssertionError
  | None => Raise AssertionError
  end.

(** One turn of the loop over [commonProperties/property]. *)
Definition read_common_property (root : Element)
    (props : gmap string value) (elem : Element)
  : result (gmap string value) :=
  name ← getitem (attrib elem) "name";
  if decide (name = "initial composition") then
    c ← read_composition elem;
    Ok (<["composition" := c]> props)
  else if decide (name = "temperature") then
    v ← value_with_units elem;
    Ok (<["temperature" := v]> props)
  else if decide (name = "pressure") then
    v ← pressure_with_units elem;
    Ok (<["pressure" := v]> props)
  else if decide (name = "pressure rise") then
    k ← text_of (find2 "apparatus" "kind" root);
    if decide (k = Some "rapid compression machine")
    then Raise (KeywordError "Pressure rise cannot be defined for RCM.")
    else v ← value_with_units elem;
         Ok (<["pressure-rise" := v]> props)
  else if decide (name = "compression time") then
    k ← text_of (find2 "apparatus" "kind" root);
    if decide (k = Some "shock tube")
    then Raise (KeywordError "Compression time cannot be defined for shock tube.")
    else v ← value_with_units elem;
         Ok (<["compression-time" := v]> props)
  else Ok props.

Definition get_common_properties (root : Element)
  : result (gmap string value) :=
  for_each (read_common_property root) ∅
           (iterfind2 "commonProperties" "property" root).

(** ** [get_ignition_type] *)

(** [elem.attrib['target'].rstrip(';').upper()]. *)
Definition normalize_target (t : string) : string := upper (rstrip ";" t).

(** The [OHEX]/[CHEX] rewriting. *)
Definition excited (t : string) : string :=
  if decide (t = "OHEX") then "OH*"
  else if decide (t = "CHEX") then "CH*"
  else t.

Definition accepted_targets : list string :=
  ["P"; "T"; "OH"; "OH*"; "CH*"; "CH"].

Definition ignition_types : list string :=
  ["max"; "d/dt max"; "baseline max intercept from d/dt";
   "baseline min intercept from d/dt"; "concentration";
   "relative concentration"].

(** The final renaming of [P] and [T]. *)
Definition rename_target (t : string) : string :=
  if decide (t = "P") then "pressure"
  else if decide (t = "T") then "temperature"
  else t.

Definition get_ignition_type (root : Element) : result ignition :=
  match find "ignitionType" root with
  | None => Raise (MissingElementError "ignitionType")
  | Some elem =>
      match attrib elem !! "target" with
      | None => Raise (MissingAttributeError "ignitionType target")
      | Some t =>
          let target := normalize_target t in
          match attrib elem !! "type" with
          | None => Raise (MissingAttributeError "ignitionType type")
          | Some type =>
              if (1 <? List.length (split ";" target))%nat
              then Raise (NotImplementedError
                            "Multiple ignition targets not implemented.")
              else
                let target := excited target in
                if negb (str_in target accepted_targets)
                then Raise (UndefinedKeywordError target)
                else if negb (str_in type ignition_types)
                then Raise (UndefinedKeywordError type)
                else if str_in type ["baseline max intercept from d/dt";
                                     "baseline min intercept from d/dt"]
                then Raise (NotImplementedError (type ++ " not supported"))
                else
                  let ign := {| ign_type := type;
                                ign_target := rename_target target |} in
                  if str_in type ["concentration"; "relative concentration"]
                  then
                    match attrib elem !! "amount" with
                    | None => Raise (MissingAttributeError "ignitionType amount")
                    | Some _ =>
                        match attrib elem !! "units" with
                        | None =>
                            Raise (MissingAttributeError "ignitionType units")
                        | Some _ =>
                            Raise (NotImplementedError
                              "concentration ignition delay type not supported")
                        end
                    end
                  else Ok ign
          end
      end
  end.

(** ** [get_datapoints] *)

Fixpoint map_each {A B} (f : A -> result B) (l : list A) : result (list B) :=
  match l with
  | [] => Ok []
  | x :: l' =>
      y ← f x;
      ys ← map_each f l';
      Ok (y :: ys)
  end.

(** The loop over the [property] elements of the first [dataGroup]; the
    state is [(unit_id, property_id)]. *)
Definition read_column (st : gmap string string * gmap string string)
    (prop : Element) : result (gmap string string * gmap string string) :=
  let '(unit_id, property_id) := st in
  units ← getitem (attrib prop) "units";
  id ← getitem (attrib prop) "id";
  name ← getitem (attrib prop) "name";
  Ok (<[id := units]> unit_id,
      <[id := if decide (name = "ignition delay") then "ignition-delay"
              else name]> property_id).

(** One turn of [for val in dp]. *)
Definition read_cell (unit_id property_id : gmap string string)
    (datapoint : gmap string value) (val : Element)
  : result (gmap string value) :=
  u ← getitem unit_id (tag val);
  let units := if decide (u = "Torr") then "torr" else u in
  t ← as_str (text val);
  name ← getitem property_id (tag val);
  Ok (<[name := VQuantity [t ++ " " ++ units]]> datapoint).

Definition read_datapoint (unit_id property_id : gmap string string)
    (dp : Element) : result (gmap string value) :=
  for_each (read_cell unit_id property_id) ∅ (children dp).

(** The first [dataGroup]: the primary table. *)
Definition read_primary (dataGroup : Element)
  : result (list (gmap string value)) :=
  '(unit_id, property_id) ←
    for_each read_column (∅, ∅) (findall "property" dataGroup);
  map_each (read_datapoint unit_id property_id)
           (findall "dataPoint" dataGroup).

(** The loop over the [property] elements of the second [dataGroup]; the
    state holds [(time_dict, time_tag)] and [(volume_dict, volume_tag)],
    [None] while the two names of a pair are unbound. *)
Definition read_history_column
    (st : option (column * string) * option (column * string))
    (prop : Element)
  : result (option (column * string) * option (column * string)) :=
  let '(tm, vol) := st in
  name ← getitem (attrib prop) "name";
  if decide (name = "time") then
    u ← getitem (attrib prop) "units";
    id ← getitem (attrib prop) "id";
    Ok (Some ({| col_units := u; col_index := 0 |}, id), vol)
  else if decide (name = "volume") then
    u ← getitem (attrib prop) "units";
    id ← getitem (attrib prop) "id";
    Ok (tm, Some ({| col_units := u; col_index := 1 |}, id))
  else Ok (tm, vol).

(** One row of the volume history: the inner [for val in dp] loop. *)
Definition read_history_row (time_tag volume_tag : string) (dp : Element)
  : result (option pyfloat * option pyfloat) :=
  for_each (fun '(time, volume) val =>
              if decide (tag val = time_tag) then
                x ← py_float (text val); Ok (Some x, volume)
              else if decide (tag val = volume_tag) then
                x ← py_float (text val); Ok (time, Some x)
              else Ok (time, volume))
           (None, None) (children dp).

(** The second [dataGroup]: the volume history. *)
Definition read_history (dataGroup : Element) : result volume_history :=
  '(tm, vol) ←
    for_each read_history_column (None, None) (findall "property" dataGroup);
  match tm with
  | None => Raise (UnboundLocalError "time_dict")
  | Some (time_dict, time_tag) =>
      match vol with
      | None => Raise (UnboundLocalError "volume_dict")
      | Some (volume_dict, volume_tag) =>
          rows ← map_each (read_history_row time_tag volume_tag)
                          (findall "dataPoint" dataGroup);
          Ok {| vh_time := time_dict; vh_volume := volume_dict;
                vh_values := rows |}
      end
  end.

Definition get_datapoints (root : Element)
  : result (list (gmap string value)) :=
  let dataGroups := findall "dataGroup" root in
  match dataGroups with
  | [] => Raise IndexError
  | dataGroup :: _ =>
      datapoints ← read_primary dataGroup;
      match dataGroups with
      | [_; second] =>
          k ← text_of (find2 "apparatus" "kind" root);
          if decide (k = Some "rapid compression machine") then
            if decide (List.length datapoints = 1%nat) then
              volume_history ← read_history second;
              match datapoints with
              | first :: others =>
                  Ok (<["volume-history" := VVolumeHistory volume_history]>
                        first :: others)
              | [] => Raise IndexError
              end
            else Raise AssertionError
          else Raise AssertionError
      | _ :: _ :: _ :: _ =>
          Raise (NotImplementedError "More than two DataGroups not supported.")
      | _ => Ok datapoints
      end
  end.

(** ** [read_experiment] *)

(** [any(...)] over a list of dictionaries: a dictionary counts as true
    when it is not empty. *)
Definition any_dict (l : list (gmap string value)) : bool :=
  existsb (fun d => negb (bool_decide (d = ∅))) l.

(** [dp.get(k)] taken as a condition. *)
Definition get_truthy (k : string) (dp : gmap string value) : bool :=
  match dp !! k with
  | Some v => truthy v
  | None => false
  end.

(** The [if]/[elif] on volume and time. *)
Definition check_time (cp : gmap string value)
    (dps : list (gmap string value)) : result unit :=
  if has_key "volume" cp && negb (has_key "time" cp)
  then Raise (KeywordError "Time values needed for volume history")
  else if existsb (has_key "volume") dps && negb (existsb (has_key "time") dps)
  then Raise (KeywordError "Time values needed for volume history")
  else Ok ().

(** The test on volume and pressure rise. *)
Definition check_pressure_rise (cp : gmap string value)
    (dps : list (gmap string value)) : result unit :=
  if (has_key "volume" cp && has_key "pressure-rise" cp)
     || (has_key "volume" cp
         && any_dict (List.filter (get_truthy "pressure-rise") dps))
     || (has_key "pressure-rise" cp
         && any_dict (List.filter (get_truthy "volume") dps))
  then Raise (KeywordError
                "Both volume history and pressure rise cannot be specified")
  else Ok ().

(** The stages that build [properties], before the consistency checks. *)
Definition assemble (filename : string) (root : Element) : result properties :=
  md ← get_file_metadata root;
  ref ← get_reference root;
  let ref :=
    {| ref_doi := ref_doi ref; ref_journal := ref_journal ref;
       ref_year := ref_year ref; ref_volume := ref_volume ref;
       ref_pages := ref_pages ref; ref_authors := ref_authors ref;
       ref_citation := ref_citation ref;
       ref_detail := Some ("Converted from " ++ basename filename) |} in
  ek ← get_experiment_kind root;
  cp ← get_common_properties root;
  ign ← get_ignition_type root;
  dps ← get_datapoints root;
  Ok {| metadata := md; prop_reference := ref; prop_experiment := ek;
        common_properties := <["ignition-type" := VIgnition ign]> cp;
        datapoints := dps |}.

Definition read_experiment (filename : string) (root : Element)
  : result properties :=
  p ← assemble filename root;
  _ ← check_time (common_properties p) (datapoints p);
  _ ← check_pressure_rise (common_properties p) (datapoints p);
  Ok p.

(** ** [convert_ReSpecTh_to_ChemKED]: applying the common properties

    The loop of [convert_ReSpecTh_to_ChemKED] assigns
    [properties['common-properties'][prop]] to
    [properties['datapoints'][idx][prop]].  A Python assignment binds the
    key to the object itself, so the objects live in a heap and the
    dictionaries hold references into it. *)


Record store : Type := {
  heap : list value;
  st_common : gmap string loc;
  st_datapoints : list (gmap string loc)
}.

(** Allocation of the values of a dictionary as fresh objects. *)
Definition alloc_dict (d : gmap string value) (h : list value)
  : gmap string loc * list value :=
  map_fold (fun k v '(refs, h) => (<[k := List.length h]> refs, (h ++ [v])%list))
           (∅, h) d.

Fixpoint alloc_dicts (ds : list (gmap string value)) (h : list value)
  : list (gmap string loc) * list value :=
  match ds with
  | [] => ([], h)
  | d :: ds' =>
      let '(r, h1) := alloc_dict d h in
      let '(rs, h2) := alloc_dicts ds' h1 in
      (r :: rs, h2)
  end.

(** The object graph [read_experiment] returns: every value is an object
    of its own. *)
Definition load (p : properties) : store :=
  let '(cp, h1) := alloc_dict (common_properties p) [] in
  let '(dps, h2) := alloc_dicts (datapoints p) h1 in
  {| heap := h2; st_common := cp; st_datapoints := dps |}.

(** [properties['datapoints'][idx][prop] =
     properties['common-properties'][prop]] for every [prop]. *)
Definition apply_to_datapoint (cp : gmap string loc) (idx : nat)
    (dps : list (gmap string loc)) : list (gmap string loc) :=
  map_fold (fun prop l dps => alter (insert prop l) idx dps) dps cp.

(** The loop over [range(len(properties['datapoints']))]. *)
Definition apply_common_properties (s : store) : store :=
  {| heap := heap s;
     st_common := st_common s;
     st_datapoints :=
       foldl (fun dps idx => apply_to_datapoint (st_common s) idx dps)
             (st_datapoints s)
             (seq 0 (List.length (st_datapoints s))) |}.

(** [properties['datapoints'][idx][prop]], dereferenced. *)
Definition read (s : store) (idx : nat) (prop : string) : option value :=
  dp ← st_datapoints s !! idx;
  l ← dp !! prop;
  heap s !! l.

(** [properties['common-properties'][prop]], dereferenced. *)
Definition read_common (s : store) (prop : string) : option value :=
  l ← st_common s !! prop;
  heap s !! l.

(** An in-place change [f] of the object that
    [properties['datapoints'][idx][prop]] refers to, such as
    [properties['datapoints'][idx][prop].append(x)]. *)
Definition mutate (f : value -> value) (idx : nat) (prop : string)
    (s : store) : store :=
  match st_datapoints s !! idx ≫= (fun dp => dp !! prop) with
  | Some l =>
      {| heap := alter f l (heap s); st_common := st_common s;
         st_datapoints := st_datapoints s |}
  | None => s
  end.

(** [q.append(x)] on a quantity list. *)
Definition append_quantity (x : string) (v : value) : value :=
  match v with
  | VQuantity q => VQuantity (q ++ [x])%list
  | _ => v
  end.

End Converters.

(** ** A concrete runtime and concrete documents

    Used to run the converter on explicit inputs.  Floats are kept as
    decimal numbers [(m, d)], standing for [m / 10^d]; the parser accepts
    the plain literals [digits] and [digits.digits], on which it agrees
    with Python.  The lookup service is unreachable. *)

Definition digit (c : ascii) : option Z :=
  let n := Z.of_N (N_of_ascii c) in
  if ((48 <=? n) && (n <=? 57))%Z then Some (n - 48)%Z else None.

Fixpoint digits (acc : Z) (s : string) : option Z :=
  match s with
  | EmptyString => Some acc
  | String c s' => d ← digit c; digits (10 * acc + d)%Z s'
  end.

Definition parse_int (s : string) : option Z :=
  if decide (s = "") then None else digits 0 s.

Definition parse_decimal (s : string) : option (Z * nat) :=
  match split "." s with
  | [a] => n ← parse_int a; Some (n, 0%nat)
  | [a; b] =>
      if decide (a = "") then None
      else n ← parse_int (a ++ b); Some (n, String.length b)
  | _ => None
  end.

Definition example_runtime : Runtime :=
  {| pyfloat := Z * nat;
     float_of_str := parse_decimal;
     int_of_float := fun '(m, d) => Ok (Z.quot m (10 ^ Z.of_nat d));
     int_of_str := parse_int;
     crossref_works := fun _ => ConnectionFailure;
     version := "0.1.0" |}.

Definition leaf (t : string) (a : gmap string string) (x : string) : Element :=
  mkElement t a (Some x) [].

Definition node (t : string) (a : gmap string string) (cs : list Element)
  : Element :=
  mkElement t a None cs.

(** A document with the given apparatus kind, [bibliographyLink]
    attributes, common properties, [ignitionType] attributes and data
    groups. *)
Definition document (kind : string) (link : gmap string string)
    (common : list Element) (ign : gmap string string)
    (groups : list Element) : Element :=
  node "experiment" ∅
    ([leaf "fileAuthor" ∅ "A. Author";
      node "bibliographyLink" link [];
      leaf "experimentType" ∅ "Ignition delay measurement";
      node "apparatus" ∅ [leaf "kind" ∅ kind];
      node "commonProperties" ∅ common;
      node "ignitionType" ign []] ++ groups)%list.

Definition column_decl (id name units : string) : Element :=
  node "property" {[ "id" := id; "name" := name; "units" := units ]} [].

Definition common_quantity (name units v : string) : Element :=
  node "property" {[ "name" := name; "units" := units ]} [leaf "value" ∅ v].

Definition key_link : gmap string string := {[ "preferredKey" := "Smith2001" ]}.
Definition pressure_max : gmap string string :=
  {[ "target" := "P"; "type" := "max" ]}.

(** A shock-tube record whose only table has the columns [time],
    [volume], [pressure-rise] and [ignition delay]. *)
Definition doc_volume_and_rise : Element :=
  document "shock tube" key_link
    [common_quantity "pressure" "Torr" "760"]
    pressure_max
    [node "dataGroup" ∅
       [column_decl "x1" "time" "s";
        column_decl "x2" "volume" "cm3";
        column_decl "x3" "pressure-rise" "1/ms";
        column_decl "x4" "ignition delay" "ms";
        node "dataPoint" ∅
          [leaf "x1" ∅ "0.001"; leaf "x2" ∅ "2.5";
           leaf "x3" ∅ "0.1"; leaf "x4" ∅ "1.23"]]].

(** A record with common temperature and two datapoints that each carry a
    temperature of their own. *)
Definition doc_two_points : Element :=
  document "shock tube" key_link
    [common_quantity "temperature" "K" "1000"]
    pressure_max
    [node "dataGroup" ∅
       [column_decl "x1" "temperature" "K";
        column_decl "x2" "ignition delay" "ms";
        node "dataPoint" ∅ [leaf "x1" ∅ "900"; leaf "x2" ∅ "1.23"];
        node "dataPoint" ∅ [leaf "x1" ∅ "950"; leaf "x2" ∅ "0.87"]]].

(** A record whose apparatus is neither of the two supported kinds. *)
Definition doc_flow_reactor : Element :=
  document "flow reactor" key_link [] pressure_max [].

(** A record whose [bibliographyLink] has no attribute at all. *)
Definition doc_no_key : Element :=
  document "shock tube" ∅ [] pressure_max [].

(** A record without [bibliographyLink]. *)
Definition doc_no_link : Element :=
  node "experiment" ∅
    [leaf "experimentType" ∅ "Ignition delay measurement"].

(** Concentration type on two targets, without [amount]. *)
Definition doc_two_targets : Element :=
  document "shock tube" key_link []
    {[ "target" := "P;T"; "type" := "concentration" ]} [].

(** Concentration type on one target, without [amount]. *)
Definition ohex_concentration : gmap string string :=
  {[ "target" := "ohex;"; "type" := "concentration" ]}.

Definition doc_concentration : Element :=
  document "shock tube" key_link [] ohex_concentration [].

Definition primary_group : Element :=
  node "dataGroup" ∅
    [column_decl "x1" "temperature" "K";
     column_decl "x2" "ignition delay" "ms";
     node "dataPoint" ∅ [leaf "x1" ∅ "900"; leaf "x2" ∅ "1.23"]].

Definition history_group : Element :=
  node "dataGroup" ∅
    [column_decl "x1" "time" "s";
     column_decl "x2" "volume" "cm3";
     node "dataPoint" ∅ [leaf "x1" ∅ "0"; leaf "x2" ∅ "10"];
     node "dataPoint" ∅ [leaf "x1" ∅ "0.5"; leaf "x2" ∅ "2"]].

(** One primary datapoint and a volume history, on either apparatus, and
    a record with a third table. *)
Definition doc_rcm_history : Element :=
  document "rapid compression machine" key_link [] pressure_max
    [primary_group; history_group].



(** The object graph of [doc_two_points], as [read_experiment] returns
    it. *)
Definition two_points_store : store :=
  match read_experiment (rt := example_runtime) "two_points.xml" doc_two_points with
  | Ok p => load p
  | Raise _ => {| heap := []; st_common := ∅; st_datapoints := [] |}
  end.

(** A record whose only table has a [volume] column and no [time]
    column. *)
Definition doc_volume_no_time : Element :=
  document "shock tube" key_link [] pressure_max
    [node "dataGroup" ∅
       [column_decl "x1" "volume" "cm3";
        column_decl "x2" "ignition delay" "ms";
        node "dataPoint" ∅ [leaf "x1" ∅ "2.5"; leaf "x2" ∅ "1.23"]]].

(** The keys [get_common_properties] can set. *)
Definition common_keys : list string :=
  ["composition"; "temperature"; "pressure"; "pressure-rise";
   "compression-time"].

(** Two targets with a supported type, and the excited-state spelling of
    one target with a trailing semicolon. *)
Definition doc_two_targets_max : Element :=
  document "shock tube" key_link []
    {[ "target" := "P;T"; "type" := "max" ]} [].

Definition ohex_max : gmap string string :=
  {[ "target" := "ohex;"; "type" := "max" ]}.

Definition doc_ohex : Element :=
  document "shock tube" key_link [] ohex_max [].

(** [s.endswith(c)] for one character. *)
Fixpoint ends_with (c : ascii) (s : string) : bool :=
  match s with
  | EmptyString => false
  | String a EmptyString => Ascii.eqb a c
  | String _ s' => ends_with c s'
  end.

(** The datapoint of [primary_group] and the history of
    [history_group]. *)
Definition primary_point : gmap string (value (rt := example_runtime)) :=
  {[ "ignition-delay" := VQuantity ["1.23 ms"];
     "temperature" := VQuantity ["900 K"] ]}.

Definition example_history : volume_history (rt := example_runtime) :=
  @Build_volume_history example_runtime
    {| col_units := "s"; col_index := 0 |}
    {| col_units := "cm3"; col_index := 1 |}
    [(Some (0%Z, 0%nat), Some (10%Z, 0%nat));
     (Some (5%Z, 1%nat), Some (2%Z, 0%nat))].

(** ** Further documents, runtimes and predicates *)

(** A record whose [fileVersion] has a [major] element without text. *)
Definition doc_empty_major : Element :=
  node "experiment" ∅
    [node "fileVersion" ∅ [node "major" ∅ []; leaf "minor" ∅ "0"]].

(** A record whose [bibliographyLink] carries a DOI. *)
Definition doi_link : gmap string string := {[ "doi" := "10.1000/182" ]}.

Definition doc_doi : Element :=
  document "shock tube" doi_link [] pressure_max [].

(** A runtime whose lookup service answers with an HTTP error, and one
    whose service answers with a message. *)
Definition not_found_runtime : Runtime :=
  {| pyfloat := Z * nat;
     float_of_str := parse_decimal;
     int_of_float := fun '(m, d) => Ok (Z.quot m (10 ^ Z.of_nat d));
     int_of_str := parse_int;
     crossref_works := fun _ => HTTPFailure;
     version := "0.1.0" |}.

Definition example_message : crossref_message :=
  {| container_title := Some ["Combustion and Flame"];
     published_print := None;
     published_online := Some [[2001%Z; 5%Z]];
     cr_volume := Some "125";
     page := Some "1-10";
     author := Some [ {| given := Some "Jane"; family := Some "Smith";
                         ORCID := Some "0000-0001" |};
                      {| given := Some "Li"; family := Some "Wei";
                         ORCID := None |} ] |}.

Definition found_runtime : Runtime :=
  {| pyfloat := Z * nat;
     float_of_str := parse_decimal;
     int_of_float := fun '(m, d) => Ok (Z.quot m (10 ^ Z.of_nat d));
     int_of_str := parse_int;
     crossref_works := fun _ => Found example_message;
     version := "0.1.0" |}.

(** An RCM record with a common pressure rise, a shock-tube record with
    a common compression time, and a shock-tube record with a two-species
    composition. *)
Definition doc_rcm_pressure_rise : Element :=
  document "rapid compression machine" key_link
    [common_quantity "temperature" "K" "1000";
     common_quantity "pressure rise" "1/ms" "0.1"]
    pressure_max [primary_group].

Definition doc_shock_compression_time : Element :=
  document "shock tube" key_link
    [common_quantity "compression time" "ms" "30"]
    pressure_max [primary_group].

Definition component (name units x : string) : Element :=
  node "component" ∅
    [node "speciesLink" {[ "preferredKey" := name ]} [];
     leaf "amount" {[ "units" := units ]} x].

Definition composition_block : Element :=
  node "property" {[ "name" := "initial composition" ]}
    [component "H2" "mole fraction" "0.5";
     component "O2" "mole fraction" "0.5"].
(** What the loop over the components keeps: one species per component
    visited, and every visited component has an [amount] whose units are
    empty or equal to [composition_type]. *)
Definition components_read {rt : Runtime}
    (st : list species * option string)
    (visited : list Element) : Prop :=
  List.length (fst st) = List.length visited
  /\ forall child, child ∈ visited ->
       exists a u, find "amount" child = Some a
         /\ attrib a !! "units" = Some u
         /\ (u = "" \/ snd st = Some u).

Definition example_composition : value (rt := example_runtime) :=
  VComposition
    (@Build_composition example_runtime
       [ @Build_species example_runtime "H2" None [(5%Z, 1%nat)];
         @Build_species example_runtime "O2" None [(5%Z, 1%nat)] ]
       "mole fraction").

(** A supported target with a type outside the vocabulary, and with a
    recognized type that is not implemented. *)
Definition pressure_slope : gmap string string :=
  {[ "target" := "P"; "type" := "slope" ]}.

Definition doc_unknown_type : Element :=
  document "shock tube" key_link [] pressure_slope [].

Definition pressure_baseline : gmap string string :=
  {[ "target" := "P"; "type" := "baseline max intercept from d/dt" ]}.

Definition doc_baseline : Element :=
  document "shock tube" key_link [] pressure_baseline [].

(** The entries of a datapoint that [get_datapoints] returns: a
    one-string quantity under a key other than "ignition delay", or the
    volume history under [volume-history]. *)
Definition datapoint_entry {rt : Runtime} (k : string) (v : value) : Prop :=
  k <> "ignition delay"
  /\ ((exists s, v = VQuantity [s])
      \/ (k = "volume-history" /\ exists h, v = VVolumeHistory h)).

(** A record with a common pressure rise whose table has a [volume]
    column, and a table with a cell whose tag is no column id. *)
Definition doc_rise_and_volume : Element :=
  document "shock tube" key_link
    [common_quantity "pressure rise" "1/ms" "0.1"]
    pressure_max
    [node "dataGroup" ∅
       [column_decl "x1" "time" "s";
        column_decl "x2" "volume" "cm3";
        node "dataPoint" ∅ [leaf "x1" ∅ "0.001"; leaf "x2" ∅ "2.5"]]].





(** [c in s] for one character. *)
Fixpoint has_char (c : ascii) (s : string) : bool :=
  match s with
  | EmptyString => false
  | String a s' => Ascii.eqb a c || has_char c s'
  end.
Definition two_targets_max : gmap string string :=
  {[ "target" := "P;T"; "type" := "max" ]}.

(** * Properties *)

(** A closed equation, checked by evaluating both sides. *)
Ltac vm_refl :=
  match goal with
  | |- _ = ?r => vm_cast_no_check (@eq_refl _ r)
  end.


(** ** The result monad and the loops *)

Lemma bind_Ok {A B} (m : result A) (f : A -> result B) (b : B) :
  m ≫= f = Ok b <-> exists a, m = Ok a /\ f a = Ok b.
Proof.
  destruct m as [a|e]; simpl; split.
  - intros Hf. exists a. split; [reflexivity | exact Hf].
  - intros (a' & Ha & Hf). injection Ha as ->. exact Hf.
  - discriminate.
  - intros (a' & Ha & _). discriminate.
Qed.

Lemma bind_Raise {A B} (m : result A) (f : A -> result B) (e : exn) :
  m = Raise e -> m ≫= f = Raise e.
Proof. intros ->. reflexivity. Qed.

(** An invariant of the accumulator survives a loop that completes. *)
Lemma for_each_invariant {A B} (P : B -> Prop) (f : B -> A -> result B) :
  (forall b x b', P b -> f b x = Ok b' -> P b') ->
  forall l b b', P b -> for_each f b l = Ok b' -> P b'.
Proof.
  intros Hstep l. induction l as [|x l IH]; intros b b' Hb Hrun.
  - simpl in Hrun. injection Hrun as <-. exact Hb.
  - simpl in Hrun. apply bind_Ok in Hrun as (b1 & Hx & Hrest).
    eapply IH; [|exact Hrest]. eapply Hstep; eassumption.
Qed.

Lemma map_each_length {A B} (f : A -> result B) (l : list A) (r : list B) :
  map_each f l = Ok r -> List.length r = List.length l.
Proof.
  revert r. induction l as [|x l IH]; intros r Hr; simpl in Hr.
  - injection Hr as <-. reflexivity.
  - apply bind_Ok in Hr as (y & _ & Hr).
    apply bind_Ok in Hr as (ys & Hys & Hr).
    injection Hr as <-. simpl. f_equal. apply IH. exact Hys.
Qed.

Lemma map_each_lookup {A B} (f : A -> result B) (l : list A) (r : list B)
    (i : nat) (y : B) :
  map_each f l = Ok r -> r !! i = Some y ->
  exists x, l !! i = Some x /\ f x = Ok y.
Proof.
  revert r i. induction l as [|x l IH]; intros r i Hr Hy; simpl in Hr.
  - injection Hr as <-. discriminate.
  - apply bind_Ok in Hr as (y0 & Hy0 & Hr).
    apply bind_Ok in Hr as (ys & Hys & Hr).
    injection Hr as <-. destruct i as [|i]; simpl in Hy.
    + injection Hy as <-. exists x. split; [reflexivity | exact Hy0].
    + apply (IH ys i Hys Hy).
Qed.

(** ** [get_experiment_kind] *)

(** Whatever goes wrong while the kind is read, the caller sees the same
    exception. *)
Lemma get_experiment_kind_kind_error (root : Element) (e : exn) :
  text_of (find "experimentType" root) = Ok (Some "Ignition delay measurement") ->
  read_kind root = Raise e ->
  get_experiment_kind root = Raise (MissingElementError "apparatus/kind").
Proof.
  intros Ht Hk. unfold get_experiment_kind. rewrite Ht, Hk. reflexivity.
Qed.

(** C3: on a record whose apparatus kind is "flow reactor",
    [get_experiment_kind] raises [NotImplementedError] inside the [try]
    block, the bare [except] replaces it, and the caller gets
    [MissingElementError('apparatus/kind')]: the very exception of a record
    without [kind] element.  The two outcomes are not distinct. *)
Theorem get_experiment_kind_flow_reactor :
  read_kind doc_flow_reactor
    = Raise (NotImplementedError "flow reactor experiment not (yet) supported")
  /\ get_experiment_kind doc_flow_reactor
     = Raise (MissingElementError "apparatus/kind")
  /\ find2 "apparatus" "kind" doc_no_link = None
  /\ get_experiment_kind doc_no_link
     = get_experiment_kind doc_flow_reactor.
Proof. vm_compute. repeat split. Qed.

(** ** [get_reference] *)

Section Reference.
Context {rt : Runtime}.

Lemma fill_reference_shape (doi : string) (m : crossref_message) (r : reference) :
  fill_reference doi m = Ok r ->
  ref_doi r = Some doi /\ ref_citation r = None.
Proof.
  unfold fill_reference. intros H.
  apply bind_Ok in H as (j & _ & H).
  apply bind_Ok in H as (y & _ & H).
  apply bind_Ok in H as (v & _ & H).
  apply bind_Ok in H as (a & _ & H).
  injection H as <-. split; reflexivity.
Qed.

(** C10: when the document has no [bibliographyLink] element,
    [get_reference] fails with [AttributeError] (the attribute access on
    [None]), which is not an exception of the [KeywordError] family and in
    particular not [MissingElementError]. *)
Theorem get_reference_missing_link (root : Element) :
  find "bibliographyLink" root = None ->
  get_reference root = Raise AttributeError
  /\ is_KeywordError AttributeError = false.
Proof.
  intros H. unfold get_reference. rewrite H. split; reflexivity.
Qed.

(** C5, amended: a reference that [get_reference] returns never has both
    shapes.  With a [doi] attribute it has the DOI shape (at least [doi])
    and no citation; without one it has no DOI-based field, and its
    citation is the [preferredKey] attribute, so that the reference is
    empty when that attribute is missing too. *)
Theorem get_reference_shapes (root : Element) (r : reference) :
  get_reference root = Ok r ->
  exists elem,
    find "bibliographyLink" root = Some elem
    /\ doi_shape r && citation_shape r = false
    /\ ref_doi r = attrib elem !! "doi"
    /\ doi_shape r = has_key "doi" (attrib elem)
    /\ citation_shape r
       = negb (has_key "doi" (attrib elem))
         && has_key "preferredKey" (attrib elem).
Proof.
  unfold get_reference, has_key.
  destruct (find "bibliographyLink" root) as [elem|]; [|discriminate].
  intros H. exists elem. split; [reflexivity|].
  destruct (attrib elem !! "doi") as [doi|] eqn:Hdoi.
  - destruct (crossref_works doi) as [m| |]; [| discriminate |].
    + apply fill_reference_shape in H as [Hd Hc].
      unfold doi_shape, citation_shape. rewrite Hd, Hc. simpl. auto.
    + injection H as <-. simpl. auto.
  - injection H as <-. unfold doi_shape, citation_shape. simpl.
    destruct (attrib elem !! "preferredKey"); simpl; auto.
Qed.

End Reference.

Lemma get_reference_missing_link_witness :
  find "bibliographyLink" doc_no_link = None
  /\ get_reference (rt := example_runtime) doc_no_link = Raise AttributeError
  /\ is_KeywordError AttributeError = false.
Proof.
  split; [reflexivity|].
  apply (get_reference_missing_link (rt := example_runtime) doc_no_link).
  reflexivity.
Defined.

(** A [bibliographyLink] without [doi] and without [preferredKey]: the
    reference comes back with neither shape. *)
Lemma get_reference_neither_shape :
  get_reference (rt := example_runtime) doc_no_key = Ok empty_reference
  /\ doi_shape empty_reference = false
  /\ citation_shape empty_reference = false.
Proof. vm_compute. repeat split. Qed.

Lemma get_reference_shapes_witness :
  get_reference (rt := example_runtime) doc_volume_and_rise
    = Ok {| ref_doi := None; ref_journal := None; ref_year := None;
            ref_volume := None; ref_pages := None; ref_authors := None;
            ref_citation := Some "Smith2001"; ref_detail := None |}
  /\ exists elem,
    find "bibliographyLink" doc_volume_and_rise = Some elem
    /\ attrib elem !! "doi" = None.
Proof.
  split; [vm_compute; reflexivity|].
  destruct (get_reference_shapes (rt := example_runtime) doc_volume_and_rise
              {| ref_doi := None; ref_journal := None; ref_year := None;
                 ref_volume := None; ref_pages := None; ref_authors := None;
                 ref_citation := Some "Smith2001"; ref_detail := None |})
    as (elem & Hfind & _ & Hdoi & _).
  - vm_compute. reflexivity.
  - exists elem. split; [exact Hfind|]. symmetry. exact Hdoi.
Defined.

(** ** Strings *)

Lemma str_in_spec (x : string) (l : list string) :
  str_in x l = true <-> In x l.
Proof.
  unfold str_in. rewrite existsb_exists. split.
  - intros (y & Hy & Heq). apply String.eqb_eq in Heq. subst y. exact Hy.
  - intros Hx. exists x. split; [exact Hx | apply String.eqb_refl].
Qed.



Lemma rstrip_fixed (c : ascii) (s : string) :
  ends_with c s = false -> rstrip c s = s.
Proof.
  induction s as [|a s IH]; simpl; [reflexivity|].
  destruct s as [|b s'].
  - intros ->. reflexivity.
  - intros H. rewrite (IH H). simpl. rewrite andb_false_r. reflexivity.
Qed.



(** ** [get_ignition_type] *)

(** A target that passes the vocabulary test has no semicolon inside. *)
Lemma accepted_single_target (n : string) :
  str_in (excited n) accepted_targets = true ->
  (1 <? List.length (split ";" n))%nat = false.
Proof.
  unfold excited.
  destruct (decide (n = "OHEX")) as [->|_]; [reflexivity|].
  destruct (decide (n = "CHEX")) as [->|_]; [reflexivity|].
  intros H. apply str_in_spec in H. simpl in H.
  repeat (destruct H as [<-|H]; [reflexivity|]). destruct H.
Qed.

(** C6, amended: for the type "concentration" or "relative concentration"
    and a target that passes the earlier tests (it normalizes to one of
    the accepted targets), a missing [amount] raises
    [MissingAttributeError('ignitionType amount')], otherwise a missing
    [units] raises [MissingAttributeError('ignitionType units')], and only
    with both present the not-implemented failure is raised. *)
Theorem get_ignition_type_concentration (root elem : Element) (t ty : string) :
  find "ignitionType" root = Some elem ->
  attrib elem !! "target" = Some t ->
  attrib elem !! "type" = Some ty ->
  str_in ty ["concentration"; "relative concentration"] = true ->
  str_in (excited (normalize_target t)) accepted_targets = true ->
  get_ignition_type root =
    match attrib elem !! "amount" with
    | None => Raise (MissingAttributeError "ignitionType amount")
    | Some _ =>
        match attrib elem !! "units" with
        | None => Raise (MissingAttributeError "ignitionType units")
        | Some _ =>
            Raise (NotImplementedError
                     "concentration ignition delay type not supported")
        end
    end.
Proof.
  intros Hfind Ht Hty Hconc Hacc. unfold get_ignition_type.
  rewrite Hfind, Ht, Hty, (accepted_single_target _ Hacc), Hacc. simpl negb.
  cbv iota. rewrite Hconc.
  apply str_in_spec in Hconc. simpl in Hconc.
  destruct Hconc as [<-|[<-|[]]]; reflexivity.
Qed.


(** Type "concentration" on two targets and without [amount]: the
    failure is the not-implemented one, not the missing attribute. *)
Lemma get_ignition_type_two_targets_concentration :
  exists elem,
    find "ignitionType" doc_two_targets = Some elem
    /\ attrib elem !! "type" = Some "concentration"
    /\ attrib elem !! "amount" = None
    /\ get_ignition_type doc_two_targets
       = Raise (NotImplementedError "Multiple ignition targets not implemented.").
Proof. eexists. vm_compute. repeat split. Qed.

Lemma get_ignition_type_concentration_witness :
  get_ignition_type doc_concentration
  = Raise (MissingAttributeError "ignitionType amount").
Proof.
  apply (get_ignition_type_concentration doc_concentration
           (node "ignitionType" ohex_concentration [])
           "ohex;" "concentration");
    vm_compute; reflexivity.
Defined.



(** ** [get_datapoints] *)

Section Datapoints.
Context {rt : Runtime}.




End Datapoints.



(** ** Applying the common properties *)

Section Broadcast.
Context {rt : Runtime}.

(** The inner loop leaves in datapoint [idx] the common properties laid
    over what the datapoint held. *)
Lemma apply_to_datapoint_union (cp : gmap string loc) (idx : nat)
    (dps : list (gmap string loc)) :
  apply_to_datapoint cp idx dps = alter (fun dp => cp ∪ dp) idx dps.
Proof.
  unfold apply_to_datapoint.
  apply (map_fold_weak_ind
           (fun r m => r = alter (fun dp => m ∪ dp) idx dps)).
  - symmetry. apply list_alter_id. intros dp. apply (left_id_L ∅ (∪)).
  - intros k l m r _ ->. rewrite list_alter_alter_eq.
    apply list_alter_ext; [|reflexivity].
    intros dp _. simpl. apply insert_union_l.
Qed.

Lemma apply_loop_lookup (cp : gmap string loc) (idxs : list nat)
    (dps : list (gmap string loc)) (j : nat) :
  foldl (fun dps idx => apply_to_datapoint cp idx dps) dps idxs !! j
  = if decide (j ∈ idxs) then (fun dp => cp ∪ dp) <$> dps !! j else dps !! j.
Proof.
  revert dps. induction idxs as [|a idxs IH]; intros dps; simpl.
  - destruct (decide (j ∈ [])) as [Hin|_]; [|reflexivity].
    apply elem_of_nil in Hin. destruct Hin.
  - rewrite IH, apply_to_datapoint_union.
    destruct (decide (j ∈ a :: idxs)) as [Hin|Hnin];
      destruct (decide (j ∈ idxs)) as [Hin'|Hnin'].
    + destruct (decide (a = j)) as [->|Hne].
      * rewrite list_lookup_alter_eq.
        destruct (dps !! j) as [dp|]; simpl; [|reflexivity].
        f_equal. rewrite (assoc_L (∪)), (idemp_L (∪)). reflexivity.
      * rewrite list_lookup_alter_ne by exact Hne. reflexivity.
    + apply elem_of_cons in Hin as [->|Hin]; [|contradiction].
      apply list_lookup_alter_eq.
    + exfalso. apply Hnin. apply list_elem_of_further. exact Hin'.
    + apply list_lookup_alter_ne. intros ->. apply Hnin.
      apply list_elem_of_here.
Qed.

(** After the loop every datapoint is the common properties laid over
    its former content. *)
Lemma apply_common_properties_lookup (s : store) (j : nat) :
  st_datapoints (apply_common_properties s) !! j
  = (fun dp => st_common s ∪ dp) <$> st_datapoints s !! j.
Proof.
  unfold apply_common_properties. simpl. rewrite apply_loop_lookup.
  destruct (decide (j ∈ seq 0 (List.length (st_datapoints s)))) as [|Hnin];
    [reflexivity|].
  rewrite (lookup_ge_None_2 (st_datapoints s) j); [reflexivity|].
  destruct (decide (j < List.length (st_datapoints s))%nat) as [Hlt|]; [|lia].
  exfalso. apply Hnin. apply elem_of_seq. lia.
Qed.

Lemma read_lookup (s : store) (idx : nat) (dp : gmap string loc)
    (prop : string) (l : loc) :
  st_datapoints s !! idx = Some dp -> dp !! prop = Some l ->
  read s idx prop = heap s !! l.
Proof.
  intros Hdp Hl. unfold read. rewrite Hdp. simpl. rewrite Hl. reflexivity.
Qed.

Lemma read_common_lookup (s : store) (prop : string) (l : loc) :
  st_common s !! prop = Some l -> read_common s prop = heap s !! l.
Proof. intros Hl. unfold read_common. rewrite Hl. reflexivity. Qed.

(** After the loop, a datapoint holds under a common-property name the
    reference that [common-properties] holds. *)
Lemma apply_common_properties_reference (s : store) (idx : nat)
    (dp : gmap string loc) (prop : string) (l : loc) :
  st_datapoints (apply_common_properties s) !! idx = Some dp ->
  st_common s !! prop = Some l ->
  dp !! prop = Some l.
Proof.
  intros Hdp Hcp. rewrite apply_common_properties_lookup in Hdp.
  destruct (st_datapoints s !! idx) as [dp0|]; [|discriminate].
  injection Hdp as <-. apply lookup_union_Some_l. exact Hcp.
Qed.

(** The loop keeps the number of datapoints. *)
Lemma apply_common_properties_length (s : store) :
  List.length (st_datapoints (apply_common_properties s))
  = List.length (st_datapoints s).
Proof.
  apply Nat.le_antisymm; apply Nat.nlt_ge; intros Hlt.
  - apply lookup_lt_is_Some_2 in Hlt as [dp Hdp].
    rewrite apply_common_properties_lookup in Hdp.
    rewrite lookup_ge_None_2 in Hdp by lia. discriminate.
  - apply lookup_lt_is_Some_2 in Hlt as [dp Hdp].
    assert (Hnone : st_datapoints (apply_common_properties s)
                      !! List.length (st_datapoints (apply_common_properties s))
                    = None) by (apply lookup_ge_None_2; lia).
    rewrite apply_common_properties_lookup, Hdp in Hnone. discriminate.
Qed.

(** C9: the loop keeps every datapoint of the record, and afterwards each
    of them holds under every common-property name the object of
    [common-properties], whatever the primary table had stored there: the
    value read through the datapoint is the common value, which the loop
    leaves as it was. *)
Theorem apply_common_properties_overwrites (s : store) (idx : nat)
    (dp0 : gmap string loc) (prop : string) (l : loc) :
  st_datapoints s !! idx = Some dp0 ->
  st_common s !! prop = Some l ->
  List.length (st_datapoints (apply_common_properties s))
  = List.length (st_datapoints s)
  /\ (exists dp,
         st_datapoints (apply_common_properties s) !! idx = Some dp
         /\ dp !! prop = Some l)
  /\ read (apply_common_properties s) idx prop = read_common s prop
  /\ read_common (apply_common_properties s) prop = read_common s prop.
Proof.
  intros Hdp0 Hcp.
  assert (Hdp : st_datapoints (apply_common_properties s) !! idx
                = Some (st_common s ∪ dp0))
    by (rewrite apply_common_properties_lookup, Hdp0; reflexivity).
  pose proof (apply_common_properties_reference s idx _ prop l Hdp Hcp) as Hl.
  split; [apply apply_common_properties_length|].
  split; [eauto|]. split; [|reflexivity].
  rewrite (read_lookup _ _ _ _ _ Hdp Hl), (read_common_lookup _ _ _ Hcp).
  reflexivity.
Qed.

(** C2, amended: the loop writes every key of [common-properties] into
    every datapoint, and what it writes is the object of
    [common-properties] itself, not a copy: all datapoints and
    [common-properties] refer to one object, so a change made in place
    through one datapoint shows in every other datapoint and in
    [common-properties]. *)
Theorem apply_common_properties_shares (s : store) (i j : nat)
    (prop : string) (l : loc) (f : value -> value) :
  (i < List.length (st_datapoints s))%nat ->
  (j < List.length (st_datapoints s))%nat ->
  st_common s !! prop = Some l ->
  let s' := apply_common_properties s in
  (exists dpi dpj,
      st_datapoints s' !! i = Some dpi /\ st_datapoints s' !! j = Some dpj
      /\ dpi !! prop = Some l /\ dpj !! prop = Some l)
  /\ read (mutate f i prop s') j prop = f <$> read s' j prop
  /\ read_common (mutate f i prop s') prop = f <$> read_common s' prop.
Proof.
  intros Hi Hj Hcp s'.
  assert (Hlen : List.length (st_datapoints s')
                 = List.length (st_datapoints s)).
  { apply Nat.le_antisymm; apply Nat.nlt_ge; intros Hlt.
    - apply lookup_lt_is_Some_2 in Hlt as [dp Hdp].
      subst s'. rewrite apply_common_properties_lookup in Hdp.
      rewrite lookup_ge_None_2 in Hdp by lia. discriminate.
    - apply lookup_lt_is_Some_2 in Hlt as [dp Hdp].
      assert (Hnone : st_datapoints s' !! List.length (st_datapoints s') = None)
        by (apply lookup_ge_None_2; lia).
      subst s'. rewrite apply_common_properties_lookup, Hdp in Hnone.
      discriminate. }
  destruct (lookup_lt_is_Some_2 (st_datapoints s') i) as [dpi Hdpi]; [lia|].
  destruct (lookup_lt_is_Some_2 (st_datapoints s') j) as [dpj Hdpj]; [lia|].
  pose proof (apply_common_properties_reference s i dpi prop l Hdpi Hcp) as Hli.
  pose proof (apply_common_properties_reference s j dpj prop l Hdpj Hcp) as Hlj.
  assert (Hmut : mutate f i prop s'
                 = {| heap := alter f l (heap s'); st_common := st_common s';
                      st_datapoints := st_datapoints s' |}).
  { unfold mutate. rewrite Hdpi. simpl. rewrite Hli. reflexivity. }
  split; [exists dpi, dpj; auto|].
  rewrite Hmut. split.
  - rewrite (read_lookup _ j dpj prop l) by assumption.
    rewrite (read_lookup s' j dpj prop l) by assumption.
    apply list_lookup_alter_eq.
  - rewrite (read_common_lookup _ prop l) by exact Hcp.
    rewrite (read_common_lookup s' prop l) by exact Hcp.
    apply list_lookup_alter_eq.
Qed.

End Broadcast.


Lemma apply_common_properties_overwrites_witness :
  read two_points_store 1 "temperature" = Some (VQuantity ["950 K"])
  /\ read (apply_common_properties two_points_store) 1 "temperature"
     = Some (VQuantity ["1000 K"]).
Proof.
  split; [vm_refl|].
  assert (Hlen : List.length (st_datapoints two_points_store) = 2%nat)
    by vm_refl.
  destruct (lookup_lt_is_Some_2 (st_datapoints two_points_store) 1)
    as [dp0 Hdp0]; [rewrite Hlen; lia|].
  assert (Hcp : st_common two_points_store !! "temperature" = Some 0%nat)
    by vm_refl.
  destruct (apply_common_properties_overwrites two_points_store 1 dp0
              "temperature" 0%nat Hdp0 Hcp) as (_ & _ & Hread & _).
  rewrite Hread. vm_refl.
Defined.

(** Appending to the temperature of the first datapoint changes the
    temperature of the second one. *)
Lemma apply_common_properties_no_copy :
  let s := apply_common_properties two_points_store in
  read s 1 "temperature" = Some (VQuantity ["1000 K"])
  /\ read (mutate (append_quantity "1 K") 0 "temperature" s) 1 "temperature"
     = Some (VQuantity ["1000 K"; "1 K"])
  /\ read (mutate (append_quantity "1 K") 0 "temperature" s) 1 "temperature"
     <> read s 1 "temperature".
Proof.
  intros s.
  assert (H1 : read s 1 "temperature" = Some (VQuantity ["1000 K"]))
    by vm_refl.
  assert (H2 : read (mutate (append_quantity "1 K") 0 "temperature" s) 1
                 "temperature" = Some (VQuantity ["1000 K"; "1 K"]))
    by vm_refl.
  split; [exact H1|]. split; [exact H2|].
  rewrite H1, H2. discriminate.
Qed.

Lemma apply_common_properties_shares_witness :
  let s := apply_common_properties two_points_store in
  read (mutate (append_quantity "1 K") 0 "temperature" s) 1 "temperature"
  = append_quantity "1 K" <$> read s 1 "temperature".
Proof.
  assert (Hlen : List.length (st_datapoints two_points_store) = 2%nat)
    by vm_refl.
  assert (Hcp : st_common two_points_store !! "temperature" = Some 0%nat)
    by vm_refl.
  exact (proj1 (proj2 (apply_common_properties_shares two_points_store 0 1
                         "temperature" 0%nat (append_quantity "1 K")
                         ltac:(rewrite Hlen; lia) ltac:(rewrite Hlen; lia)
                         Hcp))).
Defined.

(** ** [read_experiment] *)

(** Inversion of a computation that returned: splits the binds and the
    tests it went through. *)
Ltac invert_ok H :=
  repeat match type of H with
         | mbind _ _ = Ok _ => apply bind_Ok in H as (? & ? & H)
         | (if decide ?P then _ else _) = Ok _ => destruct (decide P)
         | Raise _ = Ok _ => discriminate H
         end.

Section ReadExperiment.
Context {rt : Runtime}.

Lemma read_common_property_keys (root : Element)
    (props props' : gmap string value) (elem : Element) :
  (forall k, is_Some (props !! k) -> k ∈ common_keys) ->
  read_common_property root props elem = Ok props' ->
  forall k, is_Some (props' !! k) -> k ∈ common_keys.
Proof.
  intros Hprops Hrun. unfold read_common_property in Hrun.
  invert_ok Hrun; injection Hrun as <-; try exact Hprops;
    intros k Hk; apply lookup_insert_is_Some in Hk as [<-|[_ Hk]];
    try (apply Hprops; exact Hk);
    apply list_elem_of_In; simpl; tauto.
Qed.

(** [get_common_properties] sets no key outside [common_keys]. *)
Lemma get_common_properties_keys (root : Element) (cp : gmap string value) :
  get_common_properties root = Ok cp ->
  forall k, is_Some (cp !! k) -> k ∈ common_keys.
Proof.
  unfold get_common_properties.
  apply (for_each_invariant
           (fun props => forall k, is_Some (props !! k) -> k ∈ common_keys)).
  - intros b x b'. apply read_common_property_keys.
  - intros k [v Hk]. rewrite lookup_empty in Hk. discriminate.
Qed.

(** The common properties of an assembled record hold neither [volume]
    nor [time]. *)
Lemma assemble_common_keys (filename : string) (root : Element)
    (p : properties) :
  assemble filename root = Ok p ->
  has_key "volume" (common_properties p) = false
  /\ has_key "time" (common_properties p) = false.
Proof.
  intros Hrun. unfold assemble in Hrun. invert_ok Hrun.
  injection Hrun as <-. simpl.
  match goal with
  | Hcp : get_common_properties root = Ok ?cp |- _ =>
      pose proof (get_common_properties_keys root cp Hcp) as Hkeys
  end.
  unfold has_key. split.
  - rewrite lookup_insert_ne by discriminate.
    match goal with
    | |- match ?cp !! ?k with _ => _ end = _ =>
        destruct (cp !! k) eqn:Hk; [|reflexivity];
        specialize (Hkeys k (mk_is_Some _ _ Hk))
    end.
    apply list_elem_of_In in Hkeys. simpl in Hkeys.
    repeat (destruct Hkeys as [Hkeys|Hkeys]; [discriminate|]).
    destruct Hkeys.
  - rewrite lookup_insert_ne by discriminate.
    match goal with
    | |- match ?cp !! ?k with _ => _ end = _ =>
        destruct (cp !! k) eqn:Hk; [|reflexivity];
        specialize (Hkeys k (mk_is_Some _ _ Hk))
    end.
    apply list_elem_of_In in Hkeys. simpl in Hkeys.
    repeat (destruct Hkeys as [Hkeys|Hkeys]; [discriminate|]).
    destruct Hkeys.
Qed.

(** The test on volume and pressure rise lets every record pass whose
    common properties hold neither key, whatever the datapoints hold. *)
Lemma check_pressure_rise_datapoints_only (cp : gmap string value)
    (dps : list (gmap string value)) :
  has_key "volume" cp = false ->
  has_key "pressure-rise" cp = false ->
  check_pressure_rise cp dps = Ok ().
Proof.
  intros Hv Hp. unfold check_pressure_rise. rewrite Hv, Hp. reflexivity.
Qed.

(** C4: on a record that the stages have assembled, if the common
    properties or a datapoint hold [volume] and neither the common
    properties nor any datapoint hold [time], [read_experiment] raises
    [KeywordError('Time values needed for volume history')]; when [time]
    is held by the common properties or by a datapoint, the test passes.
    So no record that [read_experiment] returns has [volume] without
    [time]. *)
Theorem read_experiment_volume_needs_time (filename : string)
    (root : Element) (p : properties) :
  assemble filename root = Ok p ->
  let cp := common_properties p in
  let dps := datapoints p in
  (has_key "volume" cp || existsb (has_key "volume") dps = true ->
   has_key "time" cp || existsb (has_key "time") dps = false ->
   read_experiment filename root
   = Raise (KeywordError "Time values needed for volume history"))
  /\ (has_key "time" cp || existsb (has_key "time") dps = true ->
      check_time cp dps = Ok ())
  /\ (is_Ok (read_experiment filename root) = true ->
      has_key "volume" cp || existsb (has_key "volume") dps = true ->
      has_key "time" cp || existsb (has_key "time") dps = true).
Proof.
  intros Hasm cp dps.
  destruct (assemble_common_keys _ _ _ Hasm) as [Hv Ht].
  fold cp in Hv, Ht.
  assert (Hfail :
    has_key "volume" cp || existsb (has_key "volume") dps = true ->
    has_key "time" cp || existsb (has_key "time") dps = false ->
    read_experiment filename root
    = Raise (KeywordError "Time values needed for volume history")).
  { intros Hvol Htime. unfold read_experiment. rewrite Hasm. simpl.
    fold cp dps. unfold check_time.
    rewrite Hv, Ht in *. simpl in *. rewrite Hvol, Htime. reflexivity. }
  split; [exact Hfail|]. split.
  - intros Htime. unfold check_time. rewrite Hv, Ht in *. simpl in *.
    rewrite Htime. simpl. rewrite andb_false_r. reflexivity.
  - intros Hok Hvol.
    destruct (has_key "time" cp || existsb (has_key "time") dps) eqn:Htime;
      [reflexivity|].
    rewrite (Hfail Hvol eq_refl) in Hok. discriminate.
Qed.

End ReadExperiment.


(** C1: a record whose primary table has the columns [time], [volume]
    and [pressure-rise] is returned by [read_experiment], with both keys
    in its datapoint: the test on volume and pressure rise looks at the
    datapoints only together with a key of the common properties. *)
Theorem read_experiment_volume_and_rise :
  exists p,
    read_experiment (rt := example_runtime) "volume_and_rise.xml"
      doc_volume_and_rise = Ok p
    /\ existsb (has_key "volume") (datapoints p) = true
    /\ existsb (has_key "pressure-rise") (datapoints p) = true
    /\ existsb (has_key "time") (datapoints p) = true.
Proof.
  assert (H : (p ← read_experiment (rt := example_runtime)
                     "volume_and_rise.xml" doc_volume_and_rise;
               Ok (existsb (has_key "volume") (datapoints p),
                   existsb (has_key "pressure-rise") (datapoints p),
                   existsb (has_key "time") (datapoints p)))
              = Ok (true, true, true)) by vm_refl.
  apply bind_Ok in H as (p & Hrun & Hkeys).
  injection Hkeys as Hv Hr Ht. exists p. auto.
Qed.

Lemma read_experiment_volume_needs_time_witness :
  read_experiment (rt := example_runtime) "volume_no_time.xml"
    doc_volume_no_time
  = Raise (KeywordError "Time values needed for volume history").
Proof.
  assert (H : (p ← assemble (rt := example_runtime) "volume_no_time.xml"
                     doc_volume_no_time;
               Ok (has_key "volume" (common_properties p)
                   || existsb (has_key "volume") (datapoints p),
                   has_key "time" (common_properties p)
                   || existsb (has_key "time") (datapoints p)))
              = Ok (true, false)) by vm_refl.
  apply bind_Ok in H as (p & Hasm & Hkeys).
  injection Hkeys as Hvol Htime.
  exact (proj1 (read_experiment_volume_needs_time
                  (rt := example_runtime) _ _ p Hasm) Hvol Htime).
Defined.

(** ** [get_file_metadata] *)

Section Metadata.
Context {rt : Runtime}.

(** X1: When [fileVersion] is absent, or has no [major], or has a [major]
    with text and no [minor], the version is [int(float('0'))]: with a
    runtime on which that is 0, the metadata come back with version 0,
    the author's text (or the empty name without [fileAuthor]) and the
    package version. *)
Theorem get_file_metadata_default_version (root : Element) (z : pyfloat) :
  float_of_str "0" = Some z ->
  int_of_float z = Ok 0%Z ->
  (find "fileVersion" root = None
   \/ exists e, find "fileVersion" root = Some e
        /\ (find "major" e = None
            \/ exists mj a, find "major" e = Some mj /\ text mj = Some a
                 /\ find "minor" e = None)) ->
  get_file_metadata root
  = Ok {| file_author_name := match find "fileAuthor" root with
                              | Some e => text e
                              | None => Some ""
                              end;
          file_version := 0;
          chemked_version := version |}.
Proof.
  intros Hz Hint Hcases.
  assert (Hv : version_string root = Ok "0").
  { unfold version_string.
    destruct Hcases as [->|(e & -> & [->|(mj & a & -> & -> & ->)])];
      reflexivity. }
  unfold get_file_metadata. rewrite Hv. simpl. unfold py_float. simpl.
  rewrite Hz. simpl. rewrite Hint. reflexivity.
Qed.

(** X2: A [major] element without text, or a [minor] element without text
    after a [major] with text, makes [get_file_metadata] fail with
    [TypeError]: the concatenation is not guarded. *)
Theorem get_file_metadata_empty_text (root e mj : Element) :
  find "fileVersion" root = Some e ->
  find "major" e = Some mj ->
  (text mj = None
   \/ exists mn, find "minor" e = Some mn /\ text mn = None) ->
  get_file_metadata root = Raise TypeError.
Proof.
  intros He Hmj Hcases.
  assert (Hv : version_string root = Raise TypeError).
  { unfold version_string. rewrite He, Hmj.
    destruct Hcases as [->|(mn & Hmn & Htext)]; [reflexivity|].
    destruct (text mj); [|reflexivity]. simpl. rewrite Hmn, Htext.
    reflexivity. }
  unfold get_file_metadata. rewrite Hv. reflexivity.
Qed.

End Metadata.

Lemma get_file_metadata_default_version_witness :
  get_file_metadata (rt := example_runtime) doc_flow_reactor
  = Ok {| file_author_name := Some "A. Author"; file_version := 0;
          chemked_version := "0.1.0" |}.
Proof.
  exact (get_file_metadata_default_version (rt := example_runtime)
           doc_flow_reactor (0%Z, 0%nat) eq_refl eq_refl
           (or_introl eq_refl)).
Defined.

Lemma get_file_metadata_empty_text_witness :
  get_file_metadata (rt := example_runtime) doc_empty_major = Raise TypeError.
Proof.
  exact (get_file_metadata_empty_text (rt := example_runtime)
           doc_empty_major
           (node "fileVersion" ∅ [node "major" ∅ []; leaf "minor" ∅ "0"])
           (node "major" ∅ []) eq_refl eq_refl (or_introl eq_refl)).
Defined.

(** ** [get_experiment_kind], continued *)

(** X3: [get_experiment_kind] returns exactly when the experiment type is
    "Ignition delay measurement" and the apparatus kind is one of the two
    supported ones; the record then has the experiment type
    "ignition delay", that kind, and empty institution and facility. *)
Theorem get_experiment_kind_returns (root : Element) (ek : experiment_kind) :
  get_experiment_kind root = Ok ek <->
  exists kd,
    text_of (find "experimentType" root) = Ok (Some "Ignition delay measurement")
    /\ text_of (find2 "apparatus" "kind" root) = Ok (Some kd)
    /\ (kd = "shock tube" \/ kd = "rapid compression machine")
    /\ ek = {| experiment_type := "ignition delay";
               exp_apparatus := {| kind := kd; institution := "";
                                   facility := "" |} |}.
Proof.
  unfold get_experiment_kind, read_kind. split.
  - intros H. apply bind_Ok in H as (t & Ht & H).
    destruct (decide (t = Some "Ignition delay measurement")) as [->|];
      [|discriminate].
    apply bind_Ok in H as (kd & Hkd & H). injection H as <-.
    unfold except_all in Hkd.
    destruct (text_of (find2 "apparatus" "kind" root)) as [[k|]|];
      cbn [mbind result_bind] in Hkd; try discriminate.
    destruct (str_in k ["shock tube"; "rapid compression machine"]) eqn:Hin;
      [|discriminate].
    injection Hkd as <-. exists k. split; [exact Ht|]. split; [reflexivity|].
    split; [|reflexivity].
    apply str_in_spec in Hin. simpl in Hin.
    destruct Hin as [<-|[<-|[]]]; auto.
  - intros (kd & -> & -> & Hkd & ->). simpl.
    destruct Hkd as [->| ->]; reflexivity.
Qed.

Lemma get_experiment_kind_returns_witness :
  get_experiment_kind doc_rcm_history
  = Ok {| experiment_type := "ignition delay";
          exp_apparatus := {| kind := "rapid compression machine";
                              institution := ""; facility := "" |} |}.
Proof.
  apply (proj2 (get_experiment_kind_returns doc_rcm_history _)).
  exists "rapid compression machine".
  split; [vm_refl|]. split; [vm_refl|]. split; [right|]; reflexivity.
Defined.

(** ** [get_reference], continued *)

Lemma bind_Raise_inv {A B} (m : result A) (f : A -> result B) (e : exn) :
  m ≫= f = Raise e ->
  m = Raise e \/ exists a, m = Ok a /\ f a = Raise e.
Proof.
  destruct m as [a|e']; simpl; intros H.
  - right. exists a. split; [reflexivity | exact H].
  - left. injection H as ->. reflexivity.
Qed.

Section ReferenceErrors.
Context {rt : Runtime}.

Lemma convert_authors_errors (l : list crossref_author) (e : exn) :
  convert_authors l = Raise e -> is_KeywordError e = false.
Proof.
  induction l as [|a l IH]; simpl; [discriminate|]. intros H.
  apply bind_Raise_inv in H as [H|(x & _ & H)].
  - unfold convert_author in H.
    destruct (given a), (family a); simpl in H; try discriminate;
      injection H as <-; reflexivity.
  - apply bind_Raise_inv in H as [H|(xs & _ & H)]; [|discriminate].
    apply IH. exact H.
Qed.

Lemma convert_authors_lookup (l : list crossref_author)
    (auths : list ref_author) :
  convert_authors l = Ok auths ->
  List.length auths = List.length l
  /\ forall i a, l !! i = Some a ->
       exists g f, given a = Some g /\ family a = Some f
         /\ exists x, auths !! i = Some x /\ auth_name x = g ++ " " ++ f.
Proof.
  revert auths. induction l as [|a l IH]; simpl; intros auths H.
  - injection H as <-. split; [reflexivity|]. intros i b Hb. discriminate.
  - apply bind_Ok in H as (x & Hx & H).
    apply bind_Ok in H as (xs & Hxs & H). injection H as <-.
    destruct (IH xs Hxs) as [Hlen Hall]. split; [simpl; lia|].
    intros [|i] b Hb; simpl in Hb.
    + injection Hb as <-. unfold convert_author in Hx.
      destruct (given a) as [g|]; [|discriminate].
      destruct (family a) as [f|]; [|discriminate].
      simpl in Hx. injection Hx as <-.
      exists g, f. split; [reflexivity|]. split; [reflexivity|].
      eexists. split; reflexivity.
    + apply (Hall i b Hb).
Qed.

(** X4: [get_reference] never fails with an exception of the [KeywordError]
    family: its failures are built-in exceptions.  In particular an HTTP
    error of the lookup service ends in [NameError] (the handler calls the
    undefined name [self]). *)
Theorem get_reference_errors (root : Element) :
  (forall e, get_reference root = Raise e -> is_KeywordError e = false)
  /\ (forall elem doi,
         find "bibliographyLink" root = Some elem ->
         attrib elem !! "doi" = Some doi ->
         crossref_works doi = HTTPFailure ->
         get_reference root = Raise (NameError "self")).
Proof.
  unfold get_reference. split.
  - intros e H.
    destruct (find "bibliographyLink" root) as [elem|];
      [|injection H as <-; reflexivity].
    destruct (attrib elem !! "doi") as [doi|]; [|discriminate].
    destruct (crossref_works doi) as [m| |];
      [|injection H as <-; reflexivity|discriminate].
    unfold fill_reference in H.
    apply bind_Raise_inv in H as [H|(j & _ & H)].
    { destruct (container_title m) as [[|? ?]|]; try discriminate;
        injection H as <-; reflexivity. }
    apply bind_Raise_inv in H as [H|(y & _ & H)].
    { destruct (published_print m) as [[|[|? ?] ?]|];
        [| | |destruct (published_online m) as [[|[|? ?] ?]|]];
        try discriminate; injection H as <-; reflexivity. }
    apply bind_Raise_inv in H as [H|(v & _ & H)].
    { unfold py_int in H. destruct (cr_volume m) as [s|]; simpl in H;
        [|injection H as <-; reflexivity].
      destruct (int_of_str s); [discriminate|].
      injection H as <-. reflexivity. }
    apply bind_Raise_inv in H as [H|(a & _ & H)]; [|discriminate].
    destruct (author m) as [l|]; [|injection H as <-; reflexivity].
    apply (convert_authors_errors l e H).
  - intros elem doi -> -> ->. reflexivity.
Qed.

(** X5: When the lookup service answers, a reference that [get_reference]
    returns has all the DOI-based fields and no citation: the journal is
    the first container title, the volume is the integer of the message's
    volume, the pages are the message's page, and there is one author per
    message author, in order, named "given family". *)
Theorem get_reference_found (root elem : Element) (doi : string)
    (m : crossref_message) (r : reference) :
  find "bibliographyLink" root = Some elem ->
  attrib elem !! "doi" = Some doi ->
  crossref_works doi = Found m ->
  get_reference root = Ok r ->
  ref_doi r = Some doi
  /\ ref_citation r = None
  /\ (exists j js, container_title m = Some (j :: js) /\ ref_journal r = Some j)
  /\ present (ref_year r) = true
  /\ (exists s v, cr_volume m = Some s /\ int_of_str s = Some v
        /\ ref_volume r = Some v)
  /\ ref_pages r = Some (page m)
  /\ exists l auths,
      author m = Some l /\ ref_authors r = Some auths
      /\ List.length auths = List.length l
      /\ forall i a, l !! i = Some a ->
           exists g f, given a = Some g /\ family a = Some f
             /\ exists x, auths !! i = Some x
                  /\ auth_name x = g ++ " " ++ f.
Proof.
  intros Hfind Hdoi Hlookup H. unfold get_reference in H.
  rewrite Hfind, Hdoi, Hlookup in H. unfold fill_reference in H.
  apply bind_Ok in H as (j & Hj & H).
  apply bind_Ok in H as (y & Hy & H).
  apply bind_Ok in H as (v & Hv & H).
  apply bind_Ok in H as (auths & Ha & H).
  injection H as <-. simpl.
  split; [reflexivity|]. split; [reflexivity|]. split.
  { destruct (container_title m) as [[|j' js]|]; try discriminate.
    injection Hj as <-. eauto. }
  split; [reflexivity|]. split.
  { unfold py_int in Hv. destruct (cr_volume m) as [s|]; [|discriminate].
    simpl in Hv. destruct (int_of_str s) as [n|] eqn:Hn; [|discriminate].
    injection Hv as <-. eauto. }
  split; [reflexivity|].
  destruct (author m) as [l|]; [|discriminate].
  destruct (convert_authors_lookup l auths Ha) as [Hlen Hall].
  exists l, auths. auto.
Qed.

End ReferenceErrors.

Lemma get_reference_errors_witness :
  get_reference (rt := not_found_runtime) doc_doi = Raise (NameError "self").
Proof.
  exact (proj2 (get_reference_errors (rt := not_found_runtime) doc_doi)
           (node "bibliographyLink" doi_link []) "10.1000/182"
           eq_refl eq_refl eq_refl).
Defined.

Lemma get_reference_found_witness :
  exists r,
    get_reference (rt := found_runtime) doc_doi = Ok r
    /\ ref_doi r = Some "10.1000/182"
    /\ ref_journal r = Some "Combustion and Flame"
    /\ ref_volume r = Some 125%Z.
Proof.
  assert (H : is_Ok (get_reference (rt := found_runtime) doc_doi) = true)
    by vm_refl.
  destruct (get_reference (rt := found_runtime) doc_doi) as [r|] eqn:Hr;
    [|discriminate].
  destruct (get_reference_found (rt := found_runtime) doc_doi
              (node "bibliographyLink" doi_link []) "10.1000/182"
              example_message r eq_refl eq_refl eq_refl Hr)
    as (Hd & _ & (j & js & Hj & Hjr) & _ & (s & v & Hs & Hv & Hvr) & _).
  exists r. split; [reflexivity|]. split; [exact Hd|].
  injection Hj as <- <-. split; [exact Hjr|].
  injection Hs as <-. rewrite Hvr. f_equal.
  change (int_of_str (Runtime := found_runtime) "125") with (Some 125%Z) in Hv.
  injection Hv as <-. reflexivity.
Defined.

(** ** Loops, continued *)

Lemma for_each_app {A B} (f : B -> A -> result B) (b : B) (l1 l2 : list A) :
  for_each f b (l1 ++ l2)%list = b' ← for_each f b l1; for_each f b' l2.
Proof.
  revert b. induction l1 as [|x l1 IH]; intros b; simpl; [reflexivity|].
  destruct (f b x) as [b1|e]; simpl; [apply IH | reflexivity].
Qed.

(** A loop fails as soon as one element makes its body fail whatever the
    accumulator. *)
Lemma for_each_fails {A B} (f : B -> A -> result B) (x : A) (l : list A) :
  (forall b, is_Ok (f b x) = false) ->
  x ∈ l ->
  forall b, is_Ok (for_each f b l) = false.
Proof.
  intros Hx Hin. induction Hin as [x l|x y l Hin IH]; intros b; simpl.
  - specialize (Hx b). destruct (f b x); [discriminate | reflexivity].
  - destruct (f b y) as [b1|e]; simpl; [apply IH; exact Hx | reflexivity].
Qed.

(** An invariant that relates the accumulator to the elements already
    visited survives a loop that completes. *)
Lemma for_each_invariant_visited {A B} (P : B -> list A -> Prop)
    (f : B -> A -> result B) :
  (forall b xs x b', P b xs -> f b x = Ok b' -> P b' (xs ++ [x])%list) ->
  forall l b b', P b [] -> for_each f b l = Ok b' -> P b' l.
Proof.
  intros Hstep l b b' Hb Hrun.
  enough (Hgen : forall l pre b, P b pre -> for_each f b l = Ok b' ->
                                 P b' (pre ++ l)%list)
    by (apply (Hgen l [] b Hb Hrun)).
  clear l b Hb Hrun. induction l as [|x l IH]; intros pre b Hb Hrun.
  - simpl in Hrun. injection Hrun as <-. rewrite app_nil_r. exact Hb.
  - simpl in Hrun. apply bind_Ok in Hrun as (b1 & Hx & Hrest).
    replace (pre ++ x :: l)%list with ((pre ++ [x]) ++ l)%list
      by (rewrite <- app_assoc; reflexivity).
    apply (IH (pre ++ [x])%list b1); [|exact Hrest].
    apply (Hstep b pre x b1 Hb Hx).
Qed.

(** ** [get_common_properties] *)

Section CommonProperties.
Context {rt : Runtime}.

(** X6: On a rapid compression machine a common property named
    "pressure rise" makes [get_common_properties] fail, wherever it
    stands; the failure is
    [KeywordError('Pressure rise cannot be defined for RCM.')] when the
    properties before it have been read. *)
Theorem get_common_properties_pressure_rise_rcm (root elem : Element) :
  text_of (find2 "apparatus" "kind" root)
  = Ok (Some "rapid compression machine") ->
  attrib elem !! "name" = Some "pressure rise" ->
  elem ∈ iterfind2 "commonProperties" "property" root ->
  is_Ok (get_common_properties root) = false
  /\ forall before after props,
      iterfind2 "commonProperties" "property" root = (before ++ elem :: after)%list ->
      for_each (read_common_property root) ∅ before = Ok props ->
      get_common_properties root
      = Raise (KeywordError "Pressure rise cannot be defined for RCM.").
Proof.
  intros Hkind Hname Hin.
  assert (Hstep : forall props,
             read_common_property root props elem
             = Raise (KeywordError "Pressure rise cannot be defined for RCM.")).
  { intros props. unfold read_common_property, getitem.
    rewrite Hname. simpl. rewrite Hkind. reflexivity. }
  split.
  - unfold get_common_properties. apply (for_each_fails _ elem); [|exact Hin].
    intros b. rewrite Hstep. reflexivity.
  - intros before after props Hsplit Hbefore.
    unfold get_common_properties. rewrite Hsplit, for_each_app, Hbefore.
    simpl. rewrite Hstep. reflexivity.
Qed.

(** X7: On a shock tube a common property named "compression time" makes
    [get_common_properties] fail, wherever it stands; the failure is
    [KeywordError('Compression time cannot be defined for shock tube.')]
    when the properties before it have been read. *)
Theorem get_common_properties_compression_time_shock_tube
    (root elem : Element) :
  text_of (find2 "apparatus" "kind" root) = Ok (Some "shock tube") ->
  attrib elem !! "name" = Some "compression time" ->
  elem ∈ iterfind2 "commonProperties" "property" root ->
  is_Ok (get_common_properties root) = false
  /\ forall before after props,
      iterfind2 "commonProperties" "property" root = (before ++ elem :: after)%list ->
      for_each (read_common_property root) ∅ before = Ok props ->
      get_common_properties root
      = Raise (KeywordError
                 "Compression time cannot be defined for shock tube.").
Proof.
  intros Hkind Hname Hin.
  assert (Hstep : forall props,
             read_common_property root props elem
             = Raise (KeywordError
                        "Compression time cannot be defined for shock tube.")).
  { intros props. unfold read_common_property, getitem.
    rewrite Hname. simpl. rewrite Hkind. reflexivity. }
  split.
  - unfold get_common_properties. apply (for_each_fails _ elem); [|exact Hin].
    intros b. rewrite Hstep. reflexivity.
  - intros before after props Hsplit Hbefore.
    unfold get_common_properties. rewrite Hsplit, for_each_app, Hbefore.
    simpl. rewrite Hstep. reflexivity.
Qed.

Lemma read_component_components_read (st st' : list species * option string)
    (visited : list Element) (child : Element) :
  components_read st visited ->
  read_component st child = Ok st' ->
  components_read st' (visited ++ [child])%list.
Proof.
  destruct st as [specs ct]. intros [Hlen Hall] Hrun. simpl in Hlen, Hall.
  unfold read_component in Hrun.
  destruct (find "speciesLink" child) as [link|]; [|discriminate].
  apply bind_Ok in Hrun as (name & _ & Hrun).
  apply bind_Ok in Hrun as (t & _ & Hrun).
  apply bind_Ok in Hrun as (x & _ & Hrun).
  apply bind_Ok in Hrun as (u & Hu & Hrun).
  destruct (find "amount" child) as [a|] eqn:Ha; [|discriminate].
  unfold getitem in Hu.
  destruct (attrib a !! "units") as [u'|] eqn:Hu'; [|discriminate].
  injection Hu as ->.
  assert (Hcase :
    (st' = ((specs ++ [ {| species_name := name;
                           InChI := attrib link !! "InChI";
                           amount := [x] |} ])%list, Some u)
     /\ (ct = None \/ ct = Some ""))
    \/ (st' = ((specs ++ [ {| species_name := name;
                              InChI := attrib link !! "InChI";
                              amount := [x] |} ])%list, ct)
        /\ ct = Some u)).
  { destruct ct as [[|c0 c]|].
    - injection Hrun as <-. left. auto.
    - destruct (decide (String c0 c = u)) as [<-|]; [|discriminate].
      injection Hrun as <-. right. auto.
    - injection Hrun as <-. left. auto. }
  destruct Hcase as [[-> Hct]|[-> Hct]]; split; simpl.
  - rewrite !length_app, Hlen. reflexivity.
  - intros c Hc. apply elem_of_app in Hc as [Hc|Hc].
    + destruct (Hall c Hc) as (a' & w & Ha' & Hw & [->|Hw']).
      * exists a', "". auto.
      * simpl in Hw'. exists a', w. split; [exact Ha'|]. split; [exact Hw|].
        left. destruct Hct as [Hct|Hct]; rewrite Hct in Hw';
          [discriminate | injection Hw' as <-; reflexivity].
    + apply list_elem_of_singleton in Hc as ->. exists a, u. auto.
  - rewrite !length_app, Hlen. reflexivity.
  - intros c Hc. apply elem_of_app in Hc as [Hc|Hc].
    + apply (Hall c Hc).
    + apply list_elem_of_singleton in Hc as ->. exists a, u. auto.
Qed.

(** X8: A composition that [read_composition] returns is of kind
    "mole fraction" or "mass fraction", has one species per [component]
    element, and every component has an [amount] whose units are that
    kind, or are empty. *)
Theorem read_composition_consistent (elem : Element) (v : value) :
  read_composition elem = Ok v ->
  exists c,
    v = VComposition c
    /\ (comp_kind c = "mole fraction" \/ comp_kind c = "mass fraction")
    /\ List.length (comp_species c) = List.length (iter "component" elem)
    /\ forall child, child ∈ iter "component" elem ->
         exists a u, find "amount" child = Some a
           /\ attrib a !! "units" = Some u
           /\ (u = "" \/ u = comp_kind c).
Proof.
  unfold read_composition. intros H.
  apply bind_Ok in H as ([specs ct] & Hloop & H).
  assert (Hinv : components_read (specs, ct) (iter "component" elem)).
  { apply (for_each_invariant_visited components_read read_component)
      with (b := ([], None)); [| |exact Hloop].
    - intros b xs x b'. apply read_component_components_read.
    - split; [reflexivity|]. intros c Hc. apply elem_of_nil in Hc.
      destruct Hc. }
  destruct ct as [kind|]; [|discriminate].
  destruct (str_in kind ["mole fraction"; "mass fraction"]) eqn:Hkind;
    [|discriminate].
  injection H as <-. eexists. split; [reflexivity|]. simpl.
  destruct Hinv as [Hlen Hall]. simpl in Hlen, Hall.
  split.
  { apply str_in_spec in Hkind. simpl in Hkind.
    destruct Hkind as [<-|[<-|[]]]; auto. }
  split; [exact Hlen|].
  intros c Hc. destruct (Hall c Hc) as (a & u & Ha & Hu & [->|Hk]).
  - exists a, "". auto.
  - injection Hk as <-. exists a, kind. auto.
Qed.

End CommonProperties.

Lemma get_common_properties_pressure_rise_rcm_witness :
  get_common_properties (rt := example_runtime) doc_rcm_pressure_rise
  = Raise (KeywordError "Pressure rise cannot be defined for RCM.").
Proof.
  assert (Hkind : text_of (find2 "apparatus" "kind" doc_rcm_pressure_rise)
                  = Ok (Some "rapid compression machine")) by vm_refl.
  assert (Hname : attrib (common_quantity "pressure rise" "1/ms" "0.1")
                    !! "name" = Some "pressure rise") by vm_refl.
  assert (Hlist : iterfind2 "commonProperties" "property" doc_rcm_pressure_rise
                  = ([common_quantity "temperature" "K" "1000"]
                       ++ common_quantity "pressure rise" "1/ms" "0.1" :: [])%list)
    by vm_refl.
  assert (Hbefore :
            for_each (read_common_property (rt := example_runtime)
                        doc_rcm_pressure_rise) ∅
              [common_quantity "temperature" "K" "1000"]
            = Ok {[ "temperature" := VQuantity ["1000 K"] ]}) by vm_refl.
  refine (proj2 (get_common_properties_pressure_rise_rcm
                   (rt := example_runtime) doc_rcm_pressure_rise
                   (common_quantity "pressure rise" "1/ms" "0.1")
                   Hkind Hname _) _ _ _ Hlist Hbefore).
  rewrite Hlist. apply elem_of_app. right. apply list_elem_of_here.
Defined.

Lemma get_common_properties_compression_time_shock_tube_witness :
  get_common_properties (rt := example_runtime) doc_shock_compression_time
  = Raise (KeywordError "Compression time cannot be defined for shock tube.").
Proof.
  assert (Hkind : text_of (find2 "apparatus" "kind" doc_shock_compression_time)
                  = Ok (Some "shock tube")) by vm_refl.
  assert (Hname : attrib (common_quantity "compression time" "ms" "30")
                    !! "name" = Some "compression time") by vm_refl.
  assert (Hlist : iterfind2 "commonProperties" "property"
                    doc_shock_compression_time
                  = ([] ++ common_quantity "compression time" "ms" "30" :: [])%list)
    by vm_refl.
  refine (proj2 (get_common_properties_compression_time_shock_tube
                   (rt := example_runtime) doc_shock_compression_time
                   (common_quantity "compression time" "ms" "30")
                   Hkind Hname _) _ _ ∅ Hlist eq_refl).
  rewrite Hlist. apply list_elem_of_here.
Defined.

Lemma read_composition_consistent_witness :
  read_composition (rt := example_runtime) composition_block
  = Ok example_composition
  /\ forall child, child ∈ iter "component" composition_block ->
       exists a u, find "amount" child = Some a
         /\ attrib a !! "units" = Some u
         /\ (u = "" \/ u = "mole fraction").
Proof.
  assert (H : read_composition (rt := example_runtime) composition_block
              = Ok example_composition) by vm_refl.
  split; [exact H|].
  destruct (read_composition_consistent (rt := example_runtime)
              composition_block example_composition H)
    as (c & Hc & _ & _ & Hall).
  injection Hc as <-. exact Hall.
Defined.

(** ** [read_experiment], continued *)

Section ReadExperimentKeys.
Context {rt : Runtime}.

(** X9: In a record that [read_experiment] returns, the common properties
    hold the ignition definition under [ignition-type] and otherwise only
    keys that [get_common_properties] sets; the reference carries the
    detail "Converted from " followed by the base name of the file. *)
Theorem read_experiment_common_properties (filename : string)
    (root : Element) (p : properties) :
  read_experiment filename root = Ok p ->
  (exists ign,
      get_ignition_type root = Ok ign
      /\ common_properties p !! "ignition-type" = Some (VIgnition ign))
  /\ (forall k, is_Some (common_properties p !! k) ->
        k = "ignition-type" \/ k ∈ common_keys)
  /\ ref_detail (prop_reference p)
     = Some ("Converted from " ++ basename filename).
Proof.
  intros Hrun. unfold read_experiment in Hrun.
  apply bind_Ok in Hrun as (p0 & Hasm & Hrun).
  apply bind_Ok in Hrun as (? & _ & Hrun).
  apply bind_Ok in Hrun as (? & _ & Hrun).
  injection Hrun as <-.
  unfold assemble in Hasm.
  apply bind_Ok in Hasm as (md & _ & Hasm).
  apply bind_Ok in Hasm as (ref & _ & Hasm).
  apply bind_Ok in Hasm as (ek & _ & Hasm).
  apply bind_Ok in Hasm as (cp & Hcp & Hasm).
  apply bind_Ok in Hasm as (ign & Hign & Hasm).
  apply bind_Ok in Hasm as (dps & _ & Hasm).
  injection Hasm as <-. simpl.
  split; [|split; [|reflexivity]].
  - exists ign. split; [exact Hign|]. apply lookup_insert_eq.
  - intros k Hk. apply lookup_insert_is_Some in Hk as [<-|[_ Hk]].
    + left. reflexivity.
    + right. apply (get_common_properties_keys root cp Hcp k Hk).
Qed.

End ReadExperimentKeys.

Lemma read_experiment_common_properties_witness :
  exists p,
    read_experiment (rt := example_runtime) "data/two_points.xml" doc_two_points
    = Ok p
    /\ common_properties p !! "ignition-type"
       = Some (VIgnition {| ign_type := "max"; ign_target := "pressure" |})
    /\ ref_detail (prop_reference p) = Some "Converted from two_points.xml".
Proof.
  assert (H : is_Ok (read_experiment (rt := example_runtime)
                       "data/two_points.xml" doc_two_points) = true)
    by vm_refl.
  destruct (read_experiment (rt := example_runtime) "data/two_points.xml"
              doc_two_points) as [p|] eqn:Hp; [|discriminate].
  destruct (read_experiment_common_properties (rt := example_runtime) _ _ p Hp)
    as ((ign & Hign & Hkey) & _ & Hdetail).
  exists p. split; [reflexivity|]. split; [|exact Hdetail].
  rewrite Hkey.
  assert (Hign' : get_ignition_type doc_two_points
                  = Ok {| ign_type := "max"; ign_target := "pressure" |})
    by vm_refl.
  rewrite Hign' in Hign. injection Hign as <-. reflexivity.
Defined.

(** ** [get_ignition_type], continued *)

(** X10: What [get_ignition_type] returns is always within the vocabulary:
    the type is "max" or "d/dt max" and the target is one of [pressure],
    [temperature], [OH], [OH*], [CH*], [CH]. *)
Theorem get_ignition_type_returns (root : Element) (ign : ignition) :
  get_ignition_type root = Ok ign ->
  (ign_type ign = "max" \/ ign_type ign = "d/dt max")
  /\ In (ign_target ign)
        ["pressure"; "temperature"; "OH"; "OH*"; "CH*"; "CH"].
Proof.
  unfold get_ignition_type. intros H.
  destruct (find "ignitionType" root) as [elem|]; [|discriminate].
  destruct (attrib elem !! "target") as [t|]; [|discriminate].
  destruct (attrib elem !! "type") as [ty|]; [|discriminate].
  destruct (1 <? List.length (split ";" (normalize_target t)))%nat;
    [discriminate|].
  destruct (str_in (excited (normalize_target t)) accepted_targets) eqn:Hacc;
    [|discriminate].
  destruct (str_in ty ignition_types) eqn:Hty; [|discriminate].
  simpl negb in H. cbv iota in H.
  destruct (str_in ty ["baseline max intercept from d/dt";
                       "baseline min intercept from d/dt"]) eqn:Hbase;
    [discriminate|].
  destruct (str_in ty ["concentration"; "relative concentration"]) eqn:Hconc.
  { destruct (attrib elem !! "amount"); [|discriminate].
    destruct (attrib elem !! "units"); discriminate. }
  injection H as <-. simpl. split.
  - apply str_in_spec in Hty. simpl in Hty.
    destruct Hty as [<-|[<-|[<-|[<-|[<-|[<-|[]]]]]]]; auto; discriminate.
  - apply str_in_spec in Hacc. simpl in Hacc.
    destruct Hacc as [<-|[<-|[<-|[<-|[<-|[<-|[]]]]]]]; simpl; auto 10.
Qed.

(** X11: With an accepted target, a type outside the six known ones raises the
    undefined-keyword failure naming the type, and the two "baseline"
    types raise the not-implemented failure. *)
Theorem get_ignition_type_type (root elem : Element) (t ty : string) :
  find "ignitionType" root = Some elem ->
  attrib elem !! "target" = Some t ->
  attrib elem !! "type" = Some ty ->
  str_in (excited (normalize_target t)) accepted_targets = true ->
  (str_in ty ignition_types = false ->
   get_ignition_type root = Raise (UndefinedKeywordError ty))
  /\ (str_in ty ["baseline max intercept from d/dt";
                 "baseline min intercept from d/dt"] = true ->
      get_ignition_type root
      = Raise (NotImplementedError (ty ++ " not supported"))).
Proof.
  intros Hfind Ht Hty Hacc. unfold get_ignition_type.
  rewrite Hfind, Ht, Hty, (accepted_single_target _ Hacc), Hacc. split.
  - intros ->. reflexivity.
  - intros Hbase. rewrite Hbase.
    apply str_in_spec in Hbase. simpl in Hbase.
    destruct Hbase as [<-|[<-|[]]]; reflexivity.
Qed.

Lemma get_ignition_type_returns_witness :
  get_ignition_type doc_ohex = Ok {| ign_type := "max"; ign_target := "OH*" |}
  /\ In "OH*" ["pressure"; "temperature"; "OH"; "OH*"; "CH*"; "CH"].
Proof.
  assert (H : get_ignition_type doc_ohex
              = Ok {| ign_type := "max"; ign_target := "OH*" |}) by vm_refl.
  split; [exact H|].
  exact (proj2 (get_ignition_type_returns doc_ohex _ H)).
Defined.

Lemma get_ignition_type_type_witness :
  get_ignition_type doc_unknown_type = Raise (UndefinedKeywordError "slope")
  /\ get_ignition_type doc_baseline
     = Raise (NotImplementedError
                "baseline max intercept from d/dt not supported").
Proof.
  split.
  - apply (proj1 (get_ignition_type_type doc_unknown_type
                    (node "ignitionType" pressure_slope []) "P" "slope"
                    eq_refl eq_refl eq_refl eq_refl)).
    reflexivity.
  - apply (proj2 (get_ignition_type_type doc_baseline
                    (node "ignitionType" pressure_baseline []) "P"
                    "baseline max intercept from d/dt"
                    eq_refl eq_refl eq_refl eq_refl)).
    reflexivity.
Defined.

(** ** [get_datapoints], continued *)


Section DatapointShape.
Context {rt : Runtime}.

(** The column names never include "ignition delay", and the columns
    with units are those whose id was declared. *)
Lemma read_column_names (props : list Element)
    (unit_id property_id : gmap string string) :
  for_each read_column (∅, ∅) props = Ok (unit_id, property_id) ->
  (forall id name, property_id !! id = Some name -> name <> "ignition delay")
  /\ (forall id, is_Some (unit_id !! id) ->
        exists prop, prop ∈ props /\ attrib prop !! "id" = Some id).
Proof.
  intros Hrun.
  apply (for_each_invariant_visited
           (fun st visited =>
              (forall id name, snd st !! id = Some name ->
                               name <> "ignition delay")
              /\ (forall id, is_Some (fst st !! id) ->
                    exists prop, prop ∈ visited
                                 /\ attrib prop !! "id" = Some id))
           read_column) in Hrun; [exact Hrun| |].
  - intros [u p] visited prop [u' p'] [Hnames Hids] Hstep.
    simpl in Hnames, Hids. unfold read_column in Hstep.
    apply bind_Ok in Hstep as (units & _ & Hstep).
    apply bind_Ok in Hstep as (id & Hid & Hstep).
    apply bind_Ok in Hstep as (name & _ & Hstep).
    injection Hstep as <- <-. simpl.
    unfold getitem in Hid.
    destruct (attrib prop !! "id") as [id'|] eqn:Hid'; [|discriminate].
    injection Hid as ->. split.
    + intros k n Hk. apply lookup_insert_Some in Hk as [[_ <-]|[_ Hk]].
      * destruct (decide (name = "ignition delay")); [discriminate|assumption].
      * apply (Hnames k n Hk).
    + intros k Hk. apply lookup_insert_is_Some in Hk as [<-|[_ Hk]].
      * exists prop. split; [|exact Hid'].
        apply elem_of_app. right. apply list_elem_of_here.
      * destruct (Hids k Hk) as (q & Hq & Hqid). exists q.
        split; [|exact Hqid]. apply elem_of_app. left. exact Hq.
  - simpl. split.
    + intros id name Hk. rewrite lookup_empty in Hk. discriminate.
    + intros id [x Hk]. rewrite lookup_empty in Hk. discriminate.
Qed.

Lemma read_cell_entries (unit_id property_id : gmap string string)
    (d d' : gmap string value) (val : Element) :
  (forall id name, property_id !! id = Some name -> name <> "ignition delay") ->
  (forall k v, d !! k = Some v -> datapoint_entry k v) ->
  read_cell unit_id property_id d val = Ok d' ->
  forall k v, d' !! k = Some v -> datapoint_entry k v.
Proof.
  intros Hnames Hd Hrun. unfold read_cell in Hrun.
  apply bind_Ok in Hrun as (u & _ & Hrun).
  apply bind_Ok in Hrun as (t & _ & Hrun).
  apply bind_Ok in Hrun as (name & Hname & Hrun).
  injection Hrun as <-. intros k v Hk.
  apply lookup_insert_Some in Hk as [[<- <-]|[_ Hk]]; [|apply (Hd k v Hk)].
  unfold getitem in Hname.
  destruct (property_id !! tag val) as [n|] eqn:Hn; [|discriminate].
  injection Hname as ->. split; [apply (Hnames _ _ Hn)|]. left. eauto.
Qed.

Lemma read_primary_entries (g : Element) (dps : list (gmap string value)) :
  read_primary g = Ok dps ->
  List.length dps = List.length (findall "dataPoint" g)
  /\ forall i dp k v, dps !! i = Some dp -> dp !! k = Some v ->
       datapoint_entry k v.
Proof.
  unfold read_primary. intros Hrun.
  apply bind_Ok in Hrun as ([unit_id property_id] & Hcols & Hrun).
  split; [apply (map_each_length _ _ _ Hrun)|].
  destruct (read_column_names _ _ _ Hcols) as [Hnames _].
  intros i dp k v Hi Hk.
  destruct (map_each_lookup _ _ _ _ _ Hrun Hi) as (x & _ & Hx).
  unfold read_datapoint in Hx.
  refine (for_each_invariant
            (fun d => forall k v, d !! k = Some v -> datapoint_entry k v)
            _ _ _ _ _ _ Hx k v Hk).
  - intros b y b' Hb. apply read_cell_entries; assumption.
  - intros k' v' Hk'. rewrite lookup_empty in Hk'. discriminate.
Qed.

(** The datapoints that [get_datapoints] returns, entry by entry. *)
Lemma get_datapoints_entries (root : Element) (dps : list (gmap string value)) :
  get_datapoints root = Ok dps ->
  exists g, head (findall "dataGroup" root) = Some g
    /\ List.length dps = List.length (findall "dataPoint" g)
    /\ forall i dp k v, dps !! i = Some dp -> dp !! k = Some v ->
         datapoint_entry k v.
Proof.
  unfold get_datapoints. intros Hrun.
  destruct (findall "dataGroup" root) as [|g [|g2 [|g3 rest]]];
    try discriminate.
  - apply bind_Ok in Hrun as (dps0 & Hprim & Hrun). injection Hrun as <-.
    exists g. split; [reflexivity|]. apply (read_primary_entries g dps0 Hprim).
  - apply bind_Ok in Hrun as (dps0 & Hprim & Hrun).
    apply bind_Ok in Hrun as (kd & _ & Hrun).
    destruct (decide (kd = Some "rapid compression machine")); [|discriminate].
    destruct (decide (List.length dps0 = 1%nat)); [|discriminate].
    apply bind_Ok in Hrun as (h & _ & Hrun).
    destruct dps0 as [|first others]; [discriminate|]. injection Hrun as <-.
    destruct (read_primary_entries g _ Hprim) as [Hlen Hall].
    exists g. split; [reflexivity|]. split; [exact Hlen|].
    intros [|i] dp k v Hi Hk; simpl in Hi.
    + injection Hi as <-.
      apply lookup_insert_Some in Hk as [[<- <-]|[_ Hk]].
      * split; [discriminate|]. right. eauto.
      * apply (Hall 0%nat first k v eq_refl Hk).
    + apply (Hall (S i) dp k v Hi Hk).
  - apply bind_Ok in Hrun as (dps0 & _ & Hrun). discriminate.
Qed.

(** X13: [get_datapoints] returns one datapoint per [dataPoint] element of the
    first [dataGroup]; no datapoint has the key "ignition delay" (that
    column is stored under [ignition-delay]), and every entry is a
    one-string quantity, or the volume history under [volume-history]. *)
Theorem get_datapoints_shape (root : Element) (dps : list (gmap string value)) :
  get_datapoints root = Ok dps ->
  (exists g, head (findall "dataGroup" root) = Some g
     /\ List.length dps = List.length (findall "dataPoint" g))
  /\ forall i dp, dps !! i = Some dp ->
       dp !! "ignition delay" = None
       /\ forall k v, dp !! k = Some v ->
            (exists s, v = VQuantity [s])
            \/ (k = "volume-history" /\ exists h, v = VVolumeHistory h).
Proof.
  intros Hrun.
  destruct (get_datapoints_entries root dps Hrun) as (g & Hg & Hlen & Hall).
  split; [eauto|]. intros i dp Hi. split.
  - destruct (dp !! "ignition delay") as [v|] eqn:Hv; [|reflexivity].
    destruct (Hall i dp _ v Hi Hv) as [Hne _]. contradiction.
  - intros k v Hk. apply (Hall i dp k v Hi Hk).
Qed.


End DatapointShape.

Lemma get_datapoints_shape_witness :
  exists dps,
    get_datapoints (rt := example_runtime) doc_rcm_history = Ok dps
    /\ List.length dps = 1%nat
    /\ forall i dp, dps !! i = Some dp -> dp !! "ignition delay" = None.
Proof.
  assert (H : get_datapoints (rt := example_runtime) doc_rcm_history
              = Ok [<["volume-history" := VVolumeHistory example_history]>
                      primary_point]) by vm_refl.
  eexists. split; [exact H|]. split; [reflexivity|].
  intros i dp Hi.
  exact (proj1 (proj2 (get_datapoints_shape (rt := example_runtime)
                         doc_rcm_history _ H) i dp Hi)).
Defined.


(** ** [read_experiment]: pressure rise and volume *)

Section PressureRise.
Context {rt : Runtime}.

Lemma any_dict_filter (k : string) (dps : list (gmap string value)) :
  existsb (get_truthy k) dps = true ->
  any_dict (List.filter (get_truthy k) dps) = true.
Proof.
  induction dps as [|d dps IH]; simpl; [discriminate|].
  destruct (get_truthy k d) eqn:Hd; simpl.
  - intros _. apply orb_true_iff. left.
    apply negb_true_iff, bool_decide_eq_false. intros ->.
    unfold get_truthy in Hd. rewrite lookup_empty in Hd. discriminate.
  - exact IH.
Qed.

(** X15: A record whose common properties hold a pressure rise and one of
    whose datapoints has a [volume] column is rejected by
    [read_experiment] with a [KeywordError]. *)
Theorem read_experiment_pressure_rise_and_volume (filename : string)
    (root : Element) (p : properties) :
  assemble filename root = Ok p ->
  has_key "pressure-rise" (common_properties p) = true ->
  existsb (has_key "volume") (datapoints p) = true ->
  exists msg, read_experiment filename root = Raise (KeywordError msg).
Proof.
  intros Hasm Hrise Hvol.
  assert (Hdps : get_datapoints root = Ok (datapoints p)).
  { unfold assemble in Hasm.
    apply bind_Ok in Hasm as (md & _ & Hasm).
    apply bind_Ok in Hasm as (ref & _ & Hasm).
    apply bind_Ok in Hasm as (ek & _ & Hasm).
    apply bind_Ok in Hasm as (cp & _ & Hasm).
    apply bind_Ok in Hasm as (ign & _ & Hasm).
    apply bind_Ok in Hasm as (dps & Hdps & Hasm).
    injection Hasm as <-. exact Hdps. }
  destruct (get_datapoints_entries root _ Hdps) as (g & _ & _ & Hall).
  assert (Htruthy : existsb (get_truthy "volume") (datapoints p) = true).
  { apply existsb_exists in Hvol as (dp & Hin & Hkey).
    apply existsb_exists. exists dp. split; [exact Hin|].
    apply list_elem_of_In, list_elem_of_lookup_1 in Hin as [i Hi].
    unfold has_key in Hkey. unfold get_truthy.
    destruct (dp !! "volume") as [v|] eqn:Hv; [|discriminate].
    destruct (Hall i dp _ v Hi Hv) as [_ [[s ->]|[_ [h ->]]]]; reflexivity. }
  unfold read_experiment. rewrite Hasm. simpl.
  destruct (check_time (common_properties p) (datapoints p)) as [[]|e] eqn:Ht.
  - simpl. unfold check_pressure_rise.
    rewrite Hrise, (any_dict_filter _ _ Htruthy). simpl.
    rewrite !orb_true_r. simpl. eauto.
  - simpl. unfold check_time in Ht.
    destruct (has_key "volume" (common_properties p)
              && negb (has_key "time" (common_properties p)));
      [injection Ht as <-; eauto|].
    destruct (existsb (has_key "volume") (datapoints p)
              && negb (existsb (has_key "time") (datapoints p)));
      [injection Ht as <-; eauto | discriminate].
Qed.

End PressureRise.

Lemma read_experiment_pressure_rise_and_volume_witness :
  exists msg,
    read_experiment (rt := example_runtime) "rise_and_volume.xml"
      doc_rise_and_volume = Raise (KeywordError msg).
Proof.
  assert (H : (p ← assemble (rt := example_runtime) "rise_and_volume.xml"
                     doc_rise_and_volume;
               Ok (has_key "pressure-rise" (common_properties p),
                   existsb (has_key "volume") (datapoints p)))
              = Ok (true, true)) by vm_refl.
  apply bind_Ok in H as (p & Hasm & Hkeys). injection Hkeys as Hrise Hvol.
  exact (read_experiment_pressure_rise_and_volume (rt := example_runtime)
           _ _ p Hasm Hrise Hvol).
Defined.

(** ** Applying the common properties, continued *)

Section BroadcastFrame.
Context {rt : Runtime}.

(** X16: The loop keeps the heap, the common properties and the number of
    datapoints, and a key that is not a common property refers in every
    datapoint to the object it referred to before. *)
Theorem apply_common_properties_frame (s : store) (idx : nat)
    (dp0 : gmap string loc) (prop : string) :
  st_datapoints s !! idx = Some dp0 ->
  st_common s !! prop = None ->
  (exists dp, st_datapoints (apply_common_properties s) !! idx = Some dp
              /\ dp !! prop = dp0 !! prop)
  /\ read (apply_common_properties s) idx prop = read s idx prop
  /\ List.length (st_datapoints (apply_common_properties s))
     = List.length (st_datapoints s)
  /\ heap (apply_common_properties s) = heap s
  /\ st_common (apply_common_properties s) = st_common s.
Proof.
  intros Hdp Hcp.
  assert (Hnew : st_datapoints (apply_common_properties s) !! idx
                 = Some (st_common s ∪ dp0))
    by (rewrite apply_common_properties_lookup, Hdp; reflexivity).
  assert (Hkey : (st_common s ∪ dp0) !! prop = dp0 !! prop)
    by (apply lookup_union_r; exact Hcp).
  split; [eauto|]. split.
  - unfold read. rewrite Hnew, Hdp. simpl. rewrite Hkey. reflexivity.
  - split; [|split; reflexivity].
    apply Nat.le_antisymm; apply Nat.nlt_ge; intros Hlt.
    + apply lookup_lt_is_Some_2 in Hlt as [dp Hlt].
      rewrite apply_common_properties_lookup in Hlt.
      rewrite lookup_ge_None_2 in Hlt by lia. discriminate.
    + apply lookup_lt_is_Some_2 in Hlt as [dp Hlt].
      assert (Hnone : st_datapoints (apply_common_properties s)
                        !! List.length (st_datapoints (apply_common_properties s))
                      = None) by (apply lookup_ge_None_2; lia).
      rewrite apply_common_properties_lookup, Hlt in Hnone. discriminate.
Qed.

Lemma store_eq (s1 s2 : store) :
  heap s1 = heap s2 -> st_common s1 = st_common s2 ->
  st_datapoints s1 = st_datapoints s2 -> s1 = s2.
Proof.
  destruct s1, s2. simpl. intros -> -> ->. reflexivity.
Qed.

(** X17: Running the loop a second time changes nothing. *)
Theorem apply_common_properties_idempotent (s : store) :
  apply_common_properties (apply_common_properties s)
  = apply_common_properties s.
Proof.
  assert (Hdps : st_datapoints (apply_common_properties
                                  (apply_common_properties s))
                 = st_datapoints (apply_common_properties s)).
  { apply list_eq. intros i.
    rewrite (apply_common_properties_lookup (apply_common_properties s)).
    rewrite apply_common_properties_lookup.
    change (st_common (apply_common_properties s)) with (st_common s).
    destruct (st_datapoints s !! i) as [dp|]; simpl; [|reflexivity].
    f_equal. rewrite (assoc_L (∪)), (idemp_L (∪)). reflexivity. }
  apply store_eq; [reflexivity | reflexivity | exact Hdps].
Qed.

End BroadcastFrame.

Lemma apply_common_properties_frame_witness :
  read (apply_common_properties two_points_store) 1 "ignition-delay"
  = read two_points_store 1 "ignition-delay".
Proof.
  assert (Hlen : List.length (st_datapoints two_points_store) = 2%nat)
    by vm_refl.
  destruct (lookup_lt_is_Some_2 (st_datapoints two_points_store) 1)
    as [dp0 Hdp0]; [rewrite Hlen; lia|].
  assert (Hcp : st_common two_points_store !! "ignition-delay" = None)
    by vm_refl.
  exact (proj1 (proj2 (apply_common_properties_frame two_points_store 1 dp0
                         "ignition-delay" Hdp0 Hcp))).
Defined.

(** ** [get_ignition_type]: several targets *)

Lemma split_length (c : ascii) (s : string) :
  (1 <? List.length (split c s))%nat = has_char c s.
Proof.
  assert (Hne : forall t, split c t <> []).
  { intros [|a t]; simpl; [discriminate|].
    destruct (Ascii.eqb a c); [discriminate|].
    destruct (split c t); discriminate. }
  induction s as [|a s IH]; simpl; [reflexivity|].
  destruct (Ascii.eqb a c) eqn:Hac; simpl.
  - destruct (split c s) as [|h t] eqn:Hs; [destruct (Hne s Hs)|].
    reflexivity.
  - destruct (split c s) as [|h t] eqn:Hs; [destruct (Hne s Hs)|].
    simpl in IH |- *. exact IH.
Qed.

(** X12: With [target] and [type] attributes present, the failure for
    multiple targets is raised exactly when a semicolon remains in the
    normalized target, that is when the target has a semicolon that is
    followed by another character. *)
Theorem get_ignition_type_multiple_targets (root elem : Element)
    (t ty : string) :
  find "ignitionType" root = Some elem ->
  attrib elem !! "target" = Some t ->
  attrib elem !! "type" = Some ty ->
  (get_ignition_type root
   = Raise (NotImplementedError "Multiple ignition targets not implemented.")
   <-> has_char ";" (normalize_target t) = true).
Proof.
  intros Hfind Ht Hty. unfold get_ignition_type.
  rewrite Hfind, Ht, Hty, split_length.
  destruct (has_char ";" (normalize_target t)) eqn:Hsemi.
  - split; reflexivity.
  - split; [|discriminate]. intros H.
    destruct (negb (str_in (excited (normalize_target t)) accepted_targets));
      [discriminate|].
    destruct (negb (str_in ty ignition_types)); [discriminate|].
    destruct (str_in ty ["baseline max intercept from d/dt";
                         "baseline min intercept from d/dt"]) eqn:Hbase.
    + injection H as H. apply str_in_spec in Hbase. simpl in Hbase.
      destruct Hbase as [<-|[<-|[]]]; discriminate.
    + destruct (str_in ty ["concentration"; "relative concentration"]);
        [|discriminate].
      destruct (attrib elem !! "amount"); [|discriminate].
      destruct (attrib elem !! "units"); discriminate.
Qed.

Lemma get_ignition_type_multiple_targets_witness :
  get_ignition_type doc_two_targets_max
  = Raise (NotImplementedError "Multiple ignition targets not implemented.").
Proof.
  apply (proj2 (get_ignition_type_multiple_targets doc_two_targets_max
                  (node "ignitionType" two_targets_max [])
                  "P;T" "max" eq_refl eq_refl eq_refl)).
  reflexivity.
Defined.

(** ** From [read_experiment] to the datapoints that are written out *)

Section Load.
Context {rt : Runtime}.

(** Allocation extends the heap, hands out references into it, and each
    reference leads to the value it was handed out for. *)
Lemma alloc_dict_spec (d : gmap string value) (h : list value)
    (refs : gmap string loc) (h' : list value) :
  alloc_dict d h = (refs, h') ->
  (exists ext, h' = (h ++ ext)%list)
  /\ (forall k l, refs !! k = Some l -> (l < List.length h')%nat)
  /\ (forall k, refs !! k ≫= (fun l => h' !! l) = d !! k).
Proof.
  unfold alloc_dict.
  pose (P := fun (r : gmap string loc * list value) (m : gmap string value) =>
               (exists ext, snd r = (h ++ ext)%list)
               /\ (forall k l, fst r !! k = Some l -> (l < List.length (snd r))%nat)
               /\ (forall k, fst r !! k ≫= (fun l => snd r !! l) = m !! k)).
  intros Hrun.
  enough (HP : P (refs, h') d) by exact HP.
  rewrite <- Hrun. apply (map_fold_weak_ind P).
  - unfold P. simpl.
    split; [exists []; rewrite app_nil_r; reflexivity|].
    split; intros k; [intros l Hl; rewrite lookup_empty in Hl; discriminate|].
    rewrite !lookup_empty. reflexivity.
  - intros i x m [refs0 h0] Hnone HP. unfold P in HP |- *.
    simpl in HP |- *. destruct HP as ([ext Hext] & Hbound & Hval).
    split; [|split].
    + exists (ext ++ [x])%list. rewrite Hext, app_assoc. reflexivity.
    + intros k l Hl. rewrite length_app. simpl.
      apply lookup_insert_Some in Hl as [[_ <-]|[_ Hl]]; [lia|].
      specialize (Hbound k l Hl). lia.
    + intros k. destruct (decide (i = k)) as [<-|Hne].
      * rewrite !lookup_insert_eq. simpl.
        rewrite lookup_app_r by lia. rewrite Nat.sub_diag. reflexivity.
      * rewrite !lookup_insert_ne by exact Hne. rewrite <- (Hval k).
        destruct (refs0 !! k) as [l|] eqn:Hl; simpl; [|reflexivity].
        apply lookup_app_l. apply (Hbound k l Hl).
Qed.

Lemma alloc_dicts_spec (ds : list (gmap string value)) (h : list value)
    (rs : list (gmap string loc)) (h' : list value) :
  alloc_dicts ds h = (rs, h') ->
  (exists ext, h' = (h ++ ext)%list)
  /\ List.length rs = List.length ds
  /\ (forall i d, ds !! i = Some d ->
        exists r, rs !! i = Some r
          /\ forall k, r !! k ≫= (fun l => h' !! l) = d !! k).
Proof.
  revert h rs h'. induction ds as [|d ds IH]; intros h rs h' Hrun;
    simpl in Hrun.
  - injection Hrun as <- <-. split; [exists []; rewrite app_nil_r; reflexivity|].
    split; [reflexivity|]. intros i d Hd. discriminate.
  - destruct (alloc_dict d h) as [r h1] eqn:Hd.
    destruct (alloc_dicts ds h1) as [rs' h2] eqn:Hds.
    injection Hrun as <- <-.
    destruct (alloc_dict_spec _ _ _ _ Hd) as ([ext1 ->] & Hbound & Hval).
    destruct (IH _ _ _ Hds) as ([ext2 ->] & Hlen & Hall).
    split; [exists (ext1 ++ ext2)%list; rewrite app_assoc; reflexivity|].
    split; [simpl; rewrite Hlen; reflexivity|].
    intros [|i] d' Hd'; simpl in Hd'.
    + injection Hd' as <-. exists r. split; [reflexivity|].
      intros k. rewrite <- (Hval k).
      destruct (r !! k) as [l|] eqn:Hl; simpl; [|reflexivity].
      apply lookup_app_l. apply (Hbound k l Hl).
    + apply (Hall i d' Hd').
Qed.

(** X18: Lines 541-543 on the record [read_experiment] returns, in terms of
    values: afterwards the entry of a datapoint under a key is the common
    property of that name when there is one, and the datapoint's own entry
    otherwise; the common properties themselves are unchanged. *)
Theorem apply_common_properties_values (p : properties) (idx : nat)
    (prop : string) :
  read (apply_common_properties (load p)) idx prop
  = (dp ← datapoints p !! idx; (common_properties p ∪ dp) !! prop)
  /\ read_common (apply_common_properties (load p)) prop
     = common_properties p !! prop.
Proof.
  unfold load.
  destruct (alloc_dict (common_properties p) []) as [cp h1] eqn:Hcp.
  destruct (alloc_dicts (datapoints p) h1) as [dps h2] eqn:Hdps.
  destruct (alloc_dict_spec _ _ _ _ Hcp) as (_ & Hbound & Hval).
  destruct (alloc_dicts_spec _ _ _ _ Hdps) as ([ext ->] & Hlen & Hall).
  assert (Hcommon : forall k,
             cp !! k ≫= (fun l => (h1 ++ ext)%list !! l)
             = common_properties p !! k).
  { intros k. rewrite <- (Hval k).
    destruct (cp !! k) as [l|] eqn:Hl; simpl; [|reflexivity].
    apply lookup_app_l. apply (Hbound k l Hl). }
  split; [|apply Hcommon].
  unfold read. rewrite apply_common_properties_lookup. simpl.
  destruct (datapoints p !! idx) as [d|] eqn:Hd.
  - destruct (Hall idx d Hd) as (r & -> & Hr). simpl.
    destruct (cp !! prop) as [l|] eqn:Hl.
    + rewrite (lookup_union_Some_l cp r prop l Hl). simpl.
      specialize (Hcommon prop). rewrite Hl in Hcommon. simpl in Hcommon.
      rewrite Hcommon.
      destruct (common_properties p !! prop) as [v|] eqn:Hv.
      * symmetry. apply lookup_union_Some_l. exact Hv.
      * exfalso.
        assert (Hlt : (l < List.length (h1 ++ ext)%list)%nat).
        { rewrite length_app. specialize (Hbound prop l Hl). lia. }
        apply lookup_lt_is_Some_2 in Hlt as [v Hv'].
        rewrite Hv' in Hcommon. discriminate.
    + rewrite (lookup_union_r cp r prop Hl), (Hr prop).
      specialize (Hcommon prop). rewrite Hl in Hcommon. simpl in Hcommon.
      symmetry. apply lookup_union_r. symmetry. exact Hcommon.
  - simpl. rewrite (lookup_ge_None_2 dps idx); [reflexivity|].
    rewrite Hlen. apply lookup_ge_None_1. exact Hd.
Qed.

End Load.
